(** * generate_refresh_token.py: the interactive OAuth token acquirer

    A shallow embedding of [google_ads_api_scripts/generate_refresh_token.py]
    and the properties its specification states about it.

    The script is a straight-line interactive program: it reads a JSON file,
    prints, reads one line from the terminal and calls an external OAuth
    library.  The embedding keeps these interactions as _events_ of a small
    free monad; a run of the program against an arbitrary environment yields
    the trace of the events it issued together with the environment's
    answers.  Every theorem below quantifies over the environment. *)

From Stdlib Require Import ZArith String Ascii List PrimFloat.
From stdpp Require Import base strings gmap list.

Local Open Scope string_scope.
Local Open Scope list_scope.

(** ** Python values

    [json.load] produces [None], booleans, integers, floats, strings, lists
    and dictionaries with string keys.  A dictionary keeps its insertion
    order (iteration over it yields the keys in that order), so it is an
    association list; a lookup finds the first binding of the key.

    A Python [str] is a sequence of code points; [string] represents the
    strings whose code points are below 256, one [ascii] per code point. *)

#[warnings="-register-all"]
Inductive pyval : Type :=
| PNone
| PBool (b : bool)
| PInt (z : Z)
| PFloat (f : float)
| PStr (s : string)
| PList (items : list pyval)
| PDict (items : list (string * pyval)).

(** ** Exceptions

    The first four are raised by the interpreter's own operations on
    values; [Foreign] is an exception raised by the environment (the file
    system, [json], the terminal, the OAuth library), with its class name,
    whether the class derives from [Exception] (as opposed to
    [BaseException] only, like [KeyboardInterrupt]), and [str(e)]. *)

Inductive exc : Type :=
| KeyError (key : pyval)
| TypeError (operation : string) (operand : pyval)
| AttributeError (attribute : string) (operand : pyval)
| IndexError (operand : pyval)
| Foreign (class_name : string) (derives_Exception : bool) (message : string).

(** [isinstance(e, Exception)] *)
Definition is_Exception (e : exc) : bool :=
  match e with
  | Foreign _ b _ => b
  | _ => true
  end.

(** What the script uses from the interpreter and from the [json] module
    without defining it: [repr] of a value, the wording of the interpreter's
    own error messages, and [json.loads]. *)
Class Builtins : Type := {
  py_repr : pyval -> string;
  py_errmsg : exc -> string;
  json_loads : string -> exc + pyval
}.

Section Values.
Context `{Builtins}.

(** [str(v)], also what an f-string field [{v}] expands to *)
Definition py_str (v : pyval) : string :=
  match v with
  | PStr s => s
  | _ => py_repr v
  end.

(** [str(e)] for an exception: [KeyError] shows the [repr] of its key *)
Definition exc_str (e : exc) : string :=
  match e with
  | KeyError key => py_repr key
  | Foreign _ _ message => message
  | _ => py_errmsg e
  end.

End Values.

(** [bool(v)], the truth value tested by [if v:] *)
Definition py_truth (v : pyval) : bool :=
  match v with
  | PNone => false
  | PBool b => b
  | PInt z => negb (z =? 0)%Z
  | PFloat f => negb (PrimFloat.eqb f 0%float)
  | PStr s => negb (s =? "")
  | PList items => match items with [] => false | _ => true end
  | PDict items => match items with [] => false | _ => true end
  end.

Fixpoint dict_lookup (key : string) (items : list (string * pyval)) : option pyval :=
  match items with
  | [] => None
  | (k, v) :: rest => if (k =? key) then Some v else dict_lookup key rest
  end.

Definition is_str (s : string) (v : pyval) : bool :=
  match v with
  | PStr s' => (s' =? s)
  | _ => false
  end.

Fixpoint is_substring (needle hay : string) : bool :=
  String.prefix needle hay ||
  match hay with
  | EmptyString => false
  | String _ rest => is_substring needle rest
  end.

(** [needle in v] for a string [needle] *)
Definition py_contains (needle : string) (v : pyval) : exc + bool :=
  match v with
  | PDict items => inr (match dict_lookup needle items with Some _ => true | None => false end)
  | PList items => inr (existsb (is_str needle) items)
  | PStr s => inr (is_substring needle s)
  | _ => inl (TypeError "in" v)
  end.

(** [v[key]] for a string [key] *)
Definition py_getitem_str (v : pyval) (key : string) : exc + pyval :=
  match v with
  | PDict items =>
      match dict_lookup key items with
      | Some x => inr x
      | None => inl (KeyError (PStr key))
      end
  | _ => inl (TypeError "[]" v)
  end.

Definition index_from_end (len : nat) (i : Z) : option nat :=
  if (0 <=? i)%Z then Some (Z.to_nat i)
  else if (0 <=? Z.of_nat len + i)%Z then Some (Z.to_nat (Z.of_nat len + i))
  else None.

Fixpoint chars (s : string) : list string :=
  match s with
  | EmptyString => []
  | String c rest => String c EmptyString :: chars rest
  end.

(** [v[i]] for an integer [i]; a dictionary decoded from JSON has string
    keys only, so an integer is never one of its keys *)
Definition py_getitem_int (v : pyval) (i : Z) : exc + pyval :=
  match v with
  | PList items =>
      match index_from_end (length items) i with
      | Some n => match nth_error items n with
                  | Some x => inr x
                  | None => inl (IndexError v)
                  end
      | None => inl (IndexError v)
      end
  | PStr s =>
      match index_from_end (String.length s) i with
      | Some n => match nth_error (chars s) n with
                  | Some c => inr (PStr c)
                  | None => inl (IndexError v)
                  end
      | None => inl (IndexError v)
      end
  | PDict _ => inl (KeyError (PInt i))
  | _ => inl (TypeError "[]" v)
  end.

(** the values [for x in v] binds [x] to, in order *)
Definition py_iter (v : pyval) : exc + list pyval :=
  match v with
  | PList items => inr items
  | PStr s => inr (map PStr (chars s))
  | PDict items => inr (map (fun kv => PStr (fst kv)) items)
  | _ => inl (TypeError "iter" v)
  end.

(** [v.get(key, default)] *)
Definition py_dict_get (v : pyval) (key : string) (default : pyval) : exc + pyval :=
  match v with
  | PDict items =>
      match dict_lookup key items with
      | Some x => inr x
      | None => inr default
      end
  | _ => inl (AttributeError "get" v)
  end.

(** [s * n] *)
Fixpoint py_mul_str (s : string) (n : nat) : string :=
  match n with
  | O => ""
  | S n' => s +:+ py_mul_str s n'
  end.

(** [c.isspace()] on the code points below 256: the ASCII controls 9 to 13
    and 28 to 31, the space, NEL (133) and the no-break space (160) *)
Definition py_isspace (c : ascii) : bool :=
  let n := N_of_ascii c in
  ((9 <=? n) && (n <=? 13) || (28 <=? n) && (n <=? 32) || (n =? 133) || (n =? 160))%N.

Fixpoint py_lstrip (s : string) : string :=
  match s with
  | EmptyString => ""
  | String c rest => if py_isspace c then py_lstrip rest else s
  end.

Fixpoint py_rstrip (s : string) : string :=
  match s with
  | EmptyString => ""
  | String c rest =>
      match py_rstrip rest with
      | EmptyString => if py_isspace c then "" else String c ""
      | kept => String c kept
      end
  end.

(** [s.strip()] *)
Definition py_strip (s : string) : string := py_rstrip (py_lstrip s).

Definition all_space (s : string) : bool := forallb py_isspace (list_ascii_of_string s).

Definition starts_with_space (s : string) : bool :=
  match s with
  | EmptyString => false
  | String c _ => py_isspace c
  end.

Fixpoint ends_with_space (s : string) : bool :=
  match s with
  | EmptyString => false
  | String c EmptyString => py_isspace c
  | String _ rest => ends_with_space rest
  end.

Definition nl : string := String (ascii_of_nat 10) "".

(** ** Interactions with the environment

    One constructor per kind of interaction the script has; the index is the
    type of the environment's answer.  An answer [inl e] means the
    interaction raised [e].

    - [Import]: an [import] statement of the module's top level;
    - [EnvironSet k v]: [os.environ[k] = v];
    - [ReadTextFile path]: [with open(path, 'r') as f:] and the read of the
      whole text that [json.load(f)] performs, the file being closed again
      when the block is left;
    - [Print text]: [print(text)];
    - [Input prompt]: [input(prompt)];
    - the remaining ones are the calls into [google_auth_oauthlib.flow.Flow],
      an opaque collaborator: construction from the client-secrets file, the
      assignment to [flow.redirect_uri], [flow.authorization_url] with its keyword arguments,
      [flow.fetch_token(authorization_response=...)] (the network call), the
      read of [flow.client_config] (a dictionary) and the read of
      [flow.credentials.refresh_token]. *)

Inductive flow : Type := FlowObject (id : nat).

Inductive event : Type -> Type :=
| Import (module : string) : event (exc + unit)
| EnvironSet (name value : string) : event unit
| ReadTextFile (path : string) : event (exc + string)
| Print (text : string) : event unit
| Input (prompt : string) : event (exc + string)
| FlowFromClientSecretsFile (path : string) (scopes : list string) : event (exc + flow)
| FlowSetRedirectUri (f : flow) (uri : pyval) : event unit
| FlowAuthorizationUrl (f : flow) (kwargs : list (string * string)) : event (exc + (string * string))
| FlowFetchToken (f : flow) (authorization_response : string) : event (exc + unit)
| FlowClientConfig (f : flow) : event (list (string * pyval))
| FlowRefreshToken (f : flow) : event (exc + pyval).

(** A program: a finite tree of interactions. *)
Inductive prog (A : Type) : Type :=
| Ret (a : A)
| Vis (X : Type) (e : event X) (k : X -> prog A).

Arguments Ret {A} a.
Arguments Vis {A X} e k.

Fixpoint bind {A B : Type} (p : prog A) (f : A -> prog B) : prog B :=
  match p with
  | Ret a => f a
  | Vis e k => Vis e (fun x => bind (k x) f)
  end.

(** Programs that may raise: the result is the exception or the value. *)
Definition progE (A : Type) : Type := prog (exc + A).

Definition ret {A : Type} (a : A) : progE A := Ret (inr a).

Definition raise {A : Type} (e : exc) : progE A := Ret (inl e).

Definition bindE {A B : Type} (p : progE A) (f : A -> progE B) : progE B :=
  bind p (fun r => match r with
                   | inl e => Ret (inl e)
                   | inr a => f a
                   end).

(** the result of a pure operation that may raise *)
Definition lift {A : Type} (r : exc + A) : progE A := Ret r.

Definition perform {A : Type} (e : event (exc + A)) : progE A := Vis e Ret.

Definition perform_ {A : Type} (e : event A) : progE A := Vis e (fun x => Ret (inr x)).

(** [try: body except Exception as e: handler(e)]; an exception whose class
    does not derive from [Exception] passes through *)
Definition try_except {A : Type} (body : progE A) (handler : exc -> progE A) : progE A :=
  bind body (fun r => match r with
                      | inl e => if is_Exception e then handler e else Ret (inl e)
                      | inr a => Ret (inr a)
                      end).

(** [for x in items: body(x)] *)
Fixpoint for_each {A : Type} (items : list A) (body : A -> progE unit) : progE unit :=
  match items with
  | [] => ret tt
  | x :: rest => bindE (body x) (fun _ => for_each rest body)
  end.

Declare Scope prog_scope.
Delimit Scope prog_scope with prog.
Notation "x <- p ;; q" := (bindE p (fun x => q))
  (at level 100, p at next level, right associativity) : prog_scope.
Notation "p ;; q" := (bindE p (fun _ => q))
  (at level 100, right associativity) : prog_scope.

Definition print (text : string) : progE unit := perform_ (Print text).
Definition input (prompt : string) : progE string := perform (Input prompt).

(** ** The script *)

Section Script.
Context `{Builtins}.
Local Open Scope prog_scope.

Definition CREDENTIALS_FILE : string := "client_secret.json".

Definition REDIRECT_URI : string := "http://localhost:8080/callback".

Definition SCOPES : list string := ["https://www.googleapis.com/auth/adwords"].

(** [show_oauth_client_info], lines 20-21: the scoped read of the file and
    [json.load] *)
Definition load_credentials : progE pyval :=
  text <- perform (ReadTextFile CREDENTIALS_FILE) ;;
  lift (json_loads text).

(** [show_oauth_client_info], lines 23-40: the summary of the parsed file
    and the returned [client_info.get('redirect_uris', [])] *)
Definition describe_client (creds : pyval) : progE pyval :=
  web_present <- lift (py_contains "web" creds) ;;
  let client_type := if (web_present : bool) then "web" else "installed" in
  client_info <- lift (py_getitem_str creds client_type) ;;
  print (py_mul_str "=" 60) ;;
  print "YOUR OAUTH CLIENT INFO:" ;;
  print (py_mul_str "=" 60) ;;
  client_id <- lift (py_getitem_str client_info "client_id") ;;
  print ("Client ID: " +:+ py_str client_id) ;;
  print ("App Type: " +:+ client_type) ;;
  uris_present <- lift (py_contains "redirect_uris" client_info) ;;
  (if (uris_present : bool) then
     print "Configured Redirect URIs:" ;;
     redirect_uris <- lift (py_getitem_str client_info "redirect_uris") ;;
     uris <- lift (py_iter redirect_uris) ;;
     for_each uris (fun uri => print ("  - " +:+ py_str uri))
   else
     print "No redirect URIs found in the JSON file") ;;
  print (py_mul_str "=" 60) ;;
  lift (py_dict_get client_info "redirect_uris" (PList [])).

Definition show_oauth_client_info : progE pyval :=
  creds <- load_credentials ;;
  describe_client creds.

(** [generate_refresh_token], lines 47-53: use an existing URI if available,
    otherwise the default *)
Definition select_redirect_uri (existing_uris : pyval) : progE pyval :=
  if py_truth existing_uris then
    redirect_uri <- lift (py_getitem_int existing_uris 0) ;;
    print ("Using existing redirect URI: " +:+ py_str redirect_uri) ;;
    ret redirect_uri
  else
    let redirect_uri := PStr REDIRECT_URI in
    print ("Using default redirect URI: " +:+ py_str redirect_uri) ;;
    print "Make sure you've added this URI to your OAuth client in Google Cloud Console!" ;;
    ret redirect_uri.

Definition AUTHORIZATION_PARAMETERS : list (string * string) :=
  [("access_type", "offline"); ("include_granted_scopes", "true"); ("prompt", "consent")].

(** lines 56-67: the flow object and the authorization URL *)
Definition build_authorization_request (redirect_uri : pyval) : progE (flow * string) :=
  flow <- perform (FlowFromClientSecretsFile CREDENTIALS_FILE SCOPES) ;;
  perform_ (FlowSetRedirectUri flow redirect_uri) ;;
  url_and_state <- perform (FlowAuthorizationUrl flow AUTHORIZATION_PARAMETERS) ;;
  ret (flow, fst (url_and_state : string * string)).

(** lines 69-76: the instructions for the operator *)
Definition present_instructions (auth_url : string) (redirect_uri : pyval) : progE unit :=
  print (nl +:+ py_mul_str "=" 60) ;;
  print "STEP 1: Visit this URL in your browser:" ;;
  print auth_url ;;
  print (py_mul_str "=" 60) ;;
  print (nl +:+ "STEP 2: After authorizing, you'll be redirected to: " +:+ py_str redirect_uri) ;;
  print "The page might not load (that's normal for localhost)." ;;
  print "Copy the ENTIRE URL from your browser's address bar and paste it below." ;;
  print (py_mul_str "=" 60).

(** line 79 *)
Definition collect_authorization_response : progE string :=
  line <- input (nl +:+ "Paste the full redirect URL here: ") ;;
  ret (py_strip line).

(** lines 85-95: the success branch after [fetch_token] *)
Definition report_credentials (flow : flow) : progE unit :=
  print (nl +:+ py_mul_str "=" 60) ;;
  print "SUCCESS! Your credentials:" ;;
  print (py_mul_str "=" 60) ;;
  config <- perform_ (FlowClientConfig flow) ;;
  client_id <- lift (py_getitem_str (PDict config) "client_id") ;;
  print ("CLIENT_ID: " +:+ py_str client_id) ;;
  config <- perform_ (FlowClientConfig flow) ;;
  client_secret <- lift (py_getitem_str (PDict config) "client_secret") ;;
  print ("CLIENT_SECRET: " +:+ py_str client_secret) ;;
  refresh_token <- perform (FlowRefreshToken flow) ;;
  print ("REFRESH_TOKEN: " +:+ py_str refresh_token) ;;
  print (py_mul_str "=" 60) ;;
  print (nl +:+ "Add these to your environment variables:") ;;
  config <- perform_ (FlowClientConfig flow) ;;
  client_id <- lift (py_getitem_str (PDict config) "client_id") ;;
  print ("GOOGLE_ADS_CLIENT_ID=" +:+ py_str client_id) ;;
  config <- perform_ (FlowClientConfig flow) ;;
  client_secret <- lift (py_getitem_str (PDict config) "client_secret") ;;
  print ("GOOGLE_ADS_CLIENT_SECRET=" +:+ py_str client_secret) ;;
  refresh_token <- perform (FlowRefreshToken flow) ;;
  print ("GOOGLE_ADS_REFRESH_TOKEN=" +:+ py_str refresh_token).

(** lines 97-102: the [except Exception as e] branch *)
Definition report_failure (e : exc) : progE unit :=
  print (nl +:+ "Error: " +:+ exc_str e) ;;
  print (nl +:+ "Common issues:") ;;
  print "1. Redirect URI mismatch - check your OAuth client configuration" ;;
  print "2. Invalid authorization code - try generating a new auth URL" ;;
  print "3. Network issues - check your internet connection".

(** lines 81-102: the [try] statement *)
Definition exchange_and_report (flow : flow) (authorization_response : string) : progE unit :=
  try_except
    (perform (FlowFetchToken flow authorization_response) ;;
     report_credentials flow)
    report_failure.

Definition generate_refresh_token : progE unit :=
  existing_uris <- show_oauth_client_info ;;
  redirect_uri <- select_redirect_uri existing_uris ;;
  request <- build_authorization_request redirect_uri ;;
  let flow := fst (request : flow * string) in
  let auth_url := snd request in
  present_instructions auth_url redirect_uri ;;
  authorization_response <- collect_authorization_response ;;
  exchange_and_report flow authorization_response.

(** The module's top level, run with [__name__] bound to [name]: the
    imports, the assignment to [os.environ], the definitions (which have no
    effect) and the guarded call of [generate_refresh_token]. *)
Definition module_toplevel (name : string) : progE unit :=
  perform (Import "json") ;;
  perform (Import "google_auth_oauthlib.flow") ;;
  perform (Import "os") ;;
  perform_ (EnvironSet "OAUTHLIB_INSECURE_TRANSPORT" "1") ;;
  if (name =? "__main__") then generate_refresh_token else ret tt.

(** [python generate_refresh_token.py] *)
Definition script : progE unit := module_toplevel "__main__".

End Script.

(** How the process ends: normally (exit status 0) when the top level
    returns, with an uncaught exception and its stack trace otherwise. *)
Inductive termination : Type :=
| ExitNormally
| UncaughtException (e : exc).

Definition termination_of (r : exc + unit) : termination :=
  match r with
  | inr _ => ExitNormally
  | inl e => UncaughtException e
  end.

(** ** Runs

    An environment is a state [W] and a [handler] that answers each event
    and moves to the next state.  A run records every event with the answer
    it received. *)

Record entry : Type := Entry {
  entry_type : Type;
  entry_event : event entry_type;
  entry_answer : entry_type
}.

Arguments Entry {entry_type} entry_event entry_answer.

Definition trace : Type := list entry.

Definition handler (W : Type) : Type := forall X : Type, event X -> W -> X * W.

Fixpoint run {W A : Type} (h : handler W) (p : prog A) (w : W) : trace * A * W :=
  match p with
  | Ret a => ([], a, w)
  | Vis e k =>
      let '(x, w1) := h _ e w in
      let '(t, a, w2) := run h (k x) w1 in
      (Entry e x :: t, a, w2)
  end.

(** ** What a trace shows

    Each observation keeps, in order, the entries of one kind. *)

Fixpoint observe {R : Type} (f : forall X : Type, event X -> X -> option R) (t : trace) : list R :=
  match t with
  | [] => []
  | en :: rest =>
      match f (entry_type en) (entry_event en) (entry_answer en) with
      | Some y => y :: observe f rest
      | None => observe f rest
      end
  end.

(** the texts of the [print] calls; each call writes its text and a newline
    to standard output *)
Definition print_of (X : Type) (e : event X) (_ : X) : option string :=
  match e with
  | Print text => Some text
  | _ => None
  end.

Definition printed : trace -> list string := observe print_of.

Definition environ_write_of (X : Type) (e : event X) (_ : X) : option (string * string) :=
  match e with
  | EnvironSet name value => Some (name, value)
  | _ => None
  end.

Definition environ_writes : trace -> list (string * string) := observe environ_write_of.

(** the process environment after the run *)
Definition environ_after (environ : gmap string string) (t : trace) : gmap string string :=
  foldl (fun m kv => <[fst kv := snd kv]> m) environ (environ_writes t).

Definition import_of (X : Type) (e : event X) : X -> option (string * (exc + unit)) :=
  match e in event X return X -> option (string * (exc + unit)) with
  | Import module => fun a => Some (module, a)
  | _ => fun _ => None
  end.

Definition imports : trace -> list (string * (exc + unit)) := observe import_of.

Definition file_read_of (X : Type) (e : event X) : X -> option (string * (exc + string)) :=
  match e in event X return X -> option (string * (exc + string)) with
  | ReadTextFile path => fun a => Some (path, a)
  | _ => fun _ => None
  end.

Definition file_reads : trace -> list (string * (exc + string)) := observe file_read_of.

Definition input_of (X : Type) (e : event X) : X -> option (exc + string) :=
  match e in event X return X -> option (exc + string) with
  | Input _ => fun a => Some a
  | _ => fun _ => None
  end.

Definition inputs : trace -> list (exc + string) := observe input_of.

Definition flow_construction_of (X : Type) (e : event X) (_ : X) : option (string * list string) :=
  match e with
  | FlowFromClientSecretsFile path scopes => Some (path, scopes)
  | _ => None
  end.

Definition flow_constructions : trace -> list (string * list string) :=
  observe flow_construction_of.

Definition authorization_url_call_of (X : Type) (e : event X) (_ : X)
  : option (list (string * string)) :=
  match e with
  | FlowAuthorizationUrl _ kwargs => Some kwargs
  | _ => None
  end.

Definition authorization_url_calls : trace -> list (list (string * string)) :=
  observe authorization_url_call_of.

(** the exchange calls: the string passed and the outcome *)
Definition exchange_of (X : Type) (e : event X) : X -> option (string * (exc + unit)) :=
  match e in event X return X -> option (string * (exc + unit)) with
  | FlowFetchToken _ authorization_response => fun a => Some (authorization_response, a)
  | _ => fun _ => None
  end.

Definition exchanges : trace -> list (string * (exc + unit)) := observe exchange_of.

Definition client_config_of (X : Type) (e : event X) : X -> option (list (string * pyval)) :=
  match e in event X return X -> option (list (string * pyval)) with
  | FlowClientConfig _ => fun a => Some a
  | _ => fun _ => None
  end.

Definition client_configs : trace -> list (list (string * pyval)) := observe client_config_of.

Definition refresh_token_of (X : Type) (e : event X) : X -> option (exc + pyval) :=
  match e in event X return X -> option (exc + pyval) with
  | FlowRefreshToken _ => fun a => Some a
  | _ => fun _ => None
  end.

Definition refresh_tokens : trace -> list (exc + pyval) := observe refresh_token_of.

(** the outcomes of [Flow.from_client_secrets_file] *)
Definition flow_built_of (X : Type) (e : event X) : X -> option (exc + flow) :=
  match e in event X return X -> option (exc + flow) with
  | FlowFromClientSecretsFile _ _ => fun a => Some a
  | _ => fun _ => None
  end.

Definition flows_built : trace -> list (exc + flow) := observe flow_built_of.

(** the values assigned to [flow.redirect_uri] *)
Definition redirect_uri_set_of (X : Type) (e : event X) (_ : X) : option pyval :=
  match e with
  | FlowSetRedirectUri _ uri => Some uri
  | _ => None
  end.

Definition redirect_uris_set : trace -> list pyval := observe redirect_uri_set_of.

(** the outcomes of [flow.authorization_url]: the URL and the state *)
Definition authorization_url_of (X : Type) (e : event X)
  : X -> option (exc + (string * string)) :=
  match e in event X return X -> option (exc + (string * string)) with
  | FlowAuthorizationUrl _ _ => fun a => Some a
  | _ => fun _ => None
  end.

Definition authorization_urls : trace -> list (exc + (string * string)) :=
  observe authorization_url_of.

Definition print_entry (text : string) : entry := Entry (Print text) tt.

Definition is_print (en : entry) : bool :=
  match entry_event en with
  | Print _ => true
  | _ => false
  end.

Definition is_import (en : entry) : bool :=
  match entry_event en with
  | Import _ => true
  | _ => false
  end.

(** a stretch of a run in which the script only prints *)
Definition prints_only (t : trace) : Prop := Forall (fun en => is_print en = true) t.

(** the interactions that reach outside the process and the terminal: the
    calls into the OAuth library and the read of the terminal *)
Definition is_flow_or_input (en : entry) : bool :=
  match entry_event en with
  | Input _ | FlowFromClientSecretsFile _ _ | FlowSetRedirectUri _ _
  | FlowAuthorizationUrl _ _ | FlowFetchToken _ _ | FlowClientConfig _
  | FlowRefreshToken _ => true
  | _ => false
  end.

(** ** The shape of a client-secrets file (specification, section 6)

    A dictionary with a ["web"] or an ["installed"] entry; each such entry
    is a dictionary with a [client_id], a [client_secret] and, optionally,
    [redirect_uris], a list of strings. *)

Definition is_string (v : pyval) : bool :=
  match v with
  | PStr _ => true
  | _ => false
  end.

Definition is_dict (v : pyval) : bool :=
  match v with
  | PDict _ => true
  | _ => false
  end.

Definition well_formed_client (v : pyval) : bool :=
  match v with
  | PDict info =>
      match dict_lookup "client_id" info, dict_lookup "client_secret" info with
      | Some (PStr _), Some (PStr _) =>
          match dict_lookup "redirect_uris" info with
          | None => true
          | Some (PList uris) => forallb is_string uris
          | Some _ => false
          end
      | _, _ => false
      end
  | _ => false
  end.

Definition well_formed_config (creds : pyval) : bool :=
  match creds with
  | PDict top =>
      match dict_lookup "web" top, dict_lookup "installed" top with
      | None, None => false
      | Some w, None => well_formed_client w
      | None, Some i => well_formed_client i
      | Some w, Some i => well_formed_client w && well_formed_client i
      end
  | _ => false
  end.

(** the client type the inspection reports for a parsed file *)
Definition client_type_of (top : list (string * pyval)) : string :=
  match dict_lookup "web" top with
  | Some _ => "web"
  | None => "installed"
  end.

(** the [redirect_uris] registered in a client entry, none when the field
    is absent *)
Definition registered_uris (info : list (string * pyval)) : list pyval :=
  match dict_lookup "redirect_uris" info with
  | Some (PList uris) => uris
  | _ => []
  end.

(** ** Concrete environments

    Used to evaluate the run on concrete inputs: a stand-in for the
    interpreter's built-ins and an environment that answers from a fixed
    scenario. *)

Module Sample.

Definition dq : string := String (ascii_of_nat 34) "".

Definition quoted (s : string) : string := dq +:+ s +:+ dq.

(** the text [{"client_id": "X", "client_secret": "Y"}] *)
Definition installed_client_text : string :=
  "{" +:+ quoted "client_id" +:+ ": " +:+ quoted "X" +:+ ", "
  +:+ quoted "client_secret" +:+ ": " +:+ quoted "Y" +:+ "}".

Definition installed_client : list (string * pyval) :=
  [("client_id", PStr "X"); ("client_secret", PStr "Y")].

(** the text [{"installed": {"client_id": "X", "client_secret": "Y"}}] *)
Definition installed_text : string :=
  "{" +:+ quoted "installed" +:+ ": " +:+ installed_client_text +:+ "}".

Definition installed_config : pyval := PDict [("installed", PDict installed_client)].

(** the text [{"client_id": "X", "client_secret": "Y",
    "redirect_uris": ["http://localhost:8080/callback"]}] *)
Definition web_client_text : string :=
  "{" +:+ quoted "client_id" +:+ ": " +:+ quoted "X" +:+ ", "
  +:+ quoted "client_secret" +:+ ": " +:+ quoted "Y" +:+ ", "
  +:+ quoted "redirect_uris" +:+ ": [" +:+ quoted "http://localhost:8080/callback" +:+ "]}".

Definition web_client : list (string * pyval) :=
  [("client_id", PStr "X"); ("client_secret", PStr "Y");
   ("redirect_uris", PList [PStr "http://localhost:8080/callback"])].

(** the text [{"web": {...}}] around [web_client_text] *)
Definition web_text : string :=
  "{" +:+ quoted "web" +:+ ": " +:+ web_client_text +:+ "}".

Definition web_config : pyval := PDict [("web", PDict web_client)].

(** the text [{"web": {...}, "installed": {...}}] with both entries *)
Definition both_text : string :=
  "{" +:+ quoted "web" +:+ ": " +:+ web_client_text +:+ ", "
  +:+ quoted "installed" +:+ ": " +:+ installed_client_text +:+ "}".

Definition both_top : list (string * pyval) :=
  [("web", PDict web_client); ("installed", PDict installed_client)].

Definition both_config : pyval := PDict both_top.

(** the text [{}] *)
Definition empty_text : string := "{}".

Definition decode_error : exc :=
  Foreign "JSONDecodeError" true "Expecting value: line 1 column 1 (char 0)".

Definition loads (text : string) : exc + pyval :=
  if (text =? installed_text) then inr installed_config
  else if (text =? web_text) then inr web_config
  else if (text =? both_text) then inr both_config
  else if (text =? empty_text) then inr (PDict [])
  else inl decode_error.

Definition repr (v : pyval) : string :=
  match v with
  | PNone => "None"
  | PBool true => "True"
  | PBool false => "False"
  | PStr s => "'" +:+ s +:+ "'"
  | _ => "<object>"
  end.

#[export] Instance builtins : Builtins := {|
  py_repr := repr;
  py_errmsg := fun _ => "<message>";
  json_loads := loads
|}.

(** what the environment answers *)
Record scenario : Type := Scenario {
  file_answer : exc + string;
  line_answer : exc + string;
  exchange_answer : exc + unit;
  config_answer : list (string * pyval);
  token_answer : exc + pyval
}.

Definition answer (sc : scenario) : handler unit :=
  fun X e w =>
    match e in event X return X * unit with
    | Import _ => (inr tt, w)
    | EnvironSet _ _ => (tt, w)
    | ReadTextFile _ => (file_answer sc, w)
    | Print _ => (tt, w)
    | Input _ => (line_answer sc, w)
    | FlowFromClientSecretsFile _ _ => (inr (FlowObject 0), w)
    | FlowSetRedirectUri _ _ => (tt, w)
    | FlowAuthorizationUrl _ _ => (inr ("https://accounts.google.com/o/oauth2/auth", "state"), w)
    | FlowFetchToken _ _ => (exchange_answer sc, w)
    | FlowClientConfig _ => (config_answer sc, w)
    | FlowRefreshToken _ => (token_answer sc, w)
    end.

Definition pasted_line : string := "  http://localhost:8080/callback?code=4/abc" +:+ nl.

Definition success : scenario :=
  Scenario (inr web_text) (inr pasted_line) (inr tt)
           [("client_id", PStr "X"); ("client_secret", PStr "Y")] (inr (PStr "R")).

Definition invalid_grant : exc := Foreign "InvalidGrantError" true "invalid_grant".

Definition rejected : scenario :=
  Scenario (inr web_text) (inr pasted_line) (inl invalid_grant)
           [("client_id", PStr "X"); ("client_secret", PStr "Y")] (inr (PStr "R")).

Definition file_not_found : exc :=
  Foreign "FileNotFoundError" true "[Errno 2] No such file or directory: 'client_secret.json'".

Definition missing_file : scenario :=
  Scenario (inl file_not_found) (inr pasted_line) (inr tt) [] (inr PNone).

Definition malformed_file : scenario :=
  Scenario (inr "not json") (inr pasted_line) (inr tt) [] (inr PNone).

Definition with_file (text : string) : scenario :=
  Scenario (inr text) (inr pasted_line) (inr tt)
           [("client_id", PStr "X"); ("client_secret", PStr "Y")] (inr (PStr "R")).

(** the run of the script, and of the inspection alone, in a scenario *)
Definition run_of (sc : scenario) : trace * (exc + unit) * unit :=
  run (answer sc) script tt.

Definition trace_of (sc : scenario) : trace := fst (fst (run_of sc)).

Definition result_of (sc : scenario) : exc + unit := snd (fst (run_of sc)).

Definition inspection_of (sc : scenario) : trace * (exc + pyval) * unit :=
  run (answer sc) show_oauth_client_info tt.

Definition shown_by (sc : scenario) : trace := fst (fst (inspection_of sc)).

Definition returned_by (sc : scenario) : exc + pyval := snd (fst (inspection_of sc)).

(** more scenarios: the operator interrupts the exchange; the flow's
    configuration has no [client_secret]; the provider issues no refresh
    token; the terminal is at its end; the operator enters a blank line *)
Definition keyboard_interrupt : exc := Foreign "KeyboardInterrupt" false "".

Definition interrupted : scenario :=
  Scenario (inr web_text) (inr pasted_line) (inl keyboard_interrupt)
           [("client_id", PStr "X"); ("client_secret", PStr "Y")] (inr (PStr "R")).

Definition secretless : scenario :=
  Scenario (inr web_text) (inr pasted_line) (inr tt)
           [("client_id", PStr "X")] (inr (PStr "R")).

Definition tokenless : scenario :=
  Scenario (inr web_text) (inr pasted_line) (inr tt)
           [("client_id", PStr "X"); ("client_secret", PStr "Y")] (inr PNone).

Definition end_of_file : exc := Foreign "EOFError" true "EOF when reading a line".

Definition end_of_input : scenario :=
  Scenario (inr web_text) (inl end_of_file) (inr tt)
           [("client_id", PStr "X"); ("client_secret", PStr "Y")] (inr (PStr "R")).

Definition blank_line : string := "  " +:+ nl.

Definition blank : scenario :=
  Scenario (inr web_text) (inr blank_line) (inr tt)
           [("client_id", PStr "X"); ("client_secret", PStr "Y")] (inr (PStr "R")).

(** an environment in which the OAuth library rejects the file *)
Definition invalid_client_secrets : exc :=
  Foreign "ValueError" true "Client secrets must be for a web or installed app.".

Definition answer_without_flow (sc : scenario) : handler unit :=
  fun X e w =>
    match e in event X return X * unit with
    | FlowFromClientSecretsFile _ _ => (inl invalid_client_secrets, w)
    | e' => answer sc _ e' w
    end.

(** the run of any part of the script in an environment *)
Definition trace_in {A : Type} (answers : handler unit) (p : prog A) : trace :=
  fst (fst (run answers p tt)).

Definition result_in {A : Type} (answers : handler unit) (p : prog A) : A :=
  snd (fst (run answers p tt)).

(** the parsed client entry whose [redirect_uris] is the string ["ab"] *)
Definition string_uris_top : list (string * pyval) :=
  [("web", PDict [("client_id", PStr "X"); ("redirect_uris", PStr "ab")])].

End Sample.

Arguments py_mul_str : simpl never.
Arguments load_credentials : simpl never.
Arguments describe_client : simpl never.
Arguments show_oauth_client_info : simpl never.
Arguments select_redirect_uri : simpl never.
Arguments build_authorization_request : simpl never.
Arguments present_instructions : simpl never.
Arguments collect_authorization_response : simpl never.
Arguments report_credentials : simpl never.
Arguments report_failure : simpl never.
Arguments exchange_and_report : simpl never.
Arguments generate_refresh_token : simpl never.
Arguments module_toplevel : simpl never.
Arguments script : simpl never.

(** * Properties *)

(** ** Runs and observations *)

(** ** [str.strip] *)

Lemma py_lstrip_split (s : string) :
  exists l, s = l +:+ py_lstrip s /\ all_space l = true.
Proof.
  induction s as [| c rest IH]; simpl.
  - exists "". split; reflexivity.
  - destruct (py_isspace c) eqn:Hc.
    + destruct IH as (l & Hl & Hspace). exists (String c l). split.
      * exact (f_equal (String c) Hl).
      * unfold all_space in *. simpl. rewrite Hc. exact Hspace.
    + exists "". split; reflexivity.
Qed.

Lemma py_lstrip_start (s : string) : starts_with_space (py_lstrip s) = false.
Proof.
  induction s as [| c rest IH]; simpl; [reflexivity |].
  destruct (py_isspace c) eqn:Hc; [exact IH | simpl; exact Hc].
Qed.

Lemma py_rstrip_split (s : string) :
  exists r, s = py_rstrip s +:+ r /\ all_space r = true.
Proof.
  induction s as [| c rest IH]; simpl.
  - exists "". split; reflexivity.
  - destruct IH as (r & Hr & Hspace).
    destruct (py_rstrip rest) as [| c' kept] eqn:Hkept.
    + change (rest = r) in Hr. subst r. destruct (py_isspace c) eqn:Hc.
      * exists (String c rest). split; [reflexivity |].
        unfold all_space in *. simpl. rewrite Hc. exact Hspace.
      * exists rest. split; [reflexivity | exact Hspace].
    + exists r. split; [| exact Hspace]. exact (f_equal (String c) Hr).
Qed.

Lemma py_rstrip_end (s : string) : ends_with_space (py_rstrip s) = false.
Proof.
  induction s as [| c rest IH]; simpl; [reflexivity |].
  destruct (py_rstrip rest) as [| c' kept] eqn:Hkept.
  - destruct (py_isspace c) eqn:Hc; simpl; [reflexivity | exact Hc].
  - exact IH.
Qed.

Lemma py_rstrip_start (s : string) :
  starts_with_space s = false -> starts_with_space (py_rstrip s) = false.
Proof.
  destruct s as [| c rest]; simpl; [reflexivity |].
  intros Hc. destruct (py_rstrip rest); [rewrite Hc |]; simpl; [exact Hc | exact Hc].
Qed.

Lemma append_assoc (a b c : string) : (a +:+ b) +:+ c = a +:+ (b +:+ c).
Proof.
  induction a as [| x a IH]; [reflexivity |].
  exact (f_equal (String x) IH).
Qed.

(** [s.strip()] removes a run of whitespace at each end and nothing else,
    and what is left neither starts nor ends with whitespace. *)
Lemma py_strip_spec (s : string) :
  exists l r,
    s = l +:+ py_strip s +:+ r /\
    all_space l = true /\ all_space r = true /\
    starts_with_space (py_strip s) = false /\
    ends_with_space (py_strip s) = false.
Proof.
  unfold py_strip.
  destruct (py_lstrip_split s) as (l & Hl & Hlspace).
  destruct (py_rstrip_split (py_lstrip s)) as (r & Hr & Hrspace).
  exists l, r. split; [| split; [exact Hlspace | split; [exact Hrspace | split]]].
  - rewrite <- Hr. exact Hl.
  - apply py_rstrip_start, py_lstrip_start.
  - apply py_rstrip_end.
Qed.

Section Runs.
Context `{Builtins} {W : Type} (h : handler W).

Lemma run_bind {A B : Type} (p : prog A) (f : A -> prog B) (w : W) :
  run h (bind p f) w =
  let '(t1, a, w1) := run h p w in
  let '(t2, b, w2) := run h (f a) w1 in
  (t1 ++ t2, b, w2).
Proof.
  revert w. induction p as [a | X e k IH]; intros w; simpl.
  - destruct (run h (f a) w) as [[t2 b] w2]. reflexivity.
  - destruct (h X e w) as [x w1]. rewrite IH.
    destruct (run h (k x) w1) as [[t1 a] w2].
    destruct (run h (f a) w2) as [[t2 b] w3]. reflexivity.
Qed.

(** A loop of [print] calls issues one [Print] per item and falls through. *)
Lemma run_for_each_print {A : Type} (items : list A) (g : A -> string) (w : W) :
  exists w', run h (for_each items (fun x => print (g x))) w
             = (map (fun x => print_entry (g x)) items, inr tt, w').
Proof.
  revert w. induction items as [| x rest IH]; intros w; simpl.
  - eauto.
  - destruct (h unit (Print (g x)) w) as [[] w1].
    destruct (IH w1) as [w' E]. rewrite E. eauto.
Qed.

Lemma triple_eq {A B C : Type} (a x : A) (b y : B) (c z : C) :
  (a, b, c) = (x, y, z) -> a = x /\ b = y /\ c = z.
Proof. intros E. injection E as Ha Hb Hc. auto. Qed.

Lemma ends_with_suffix {A : Type} (l k : list A) :
  k `suffix_of` l -> exists before, l = before ++ k.
Proof. intros [before Hl]. exists before. exact Hl. Qed.

Lemma run_Ret {A : Type} (a : A) (w : W) : run h (Ret a) w = ([], a, w).
Proof. reflexivity. Qed.

Lemma run_Vis {A X : Type} (e : event X) (k : X -> prog A) (w : W) :
  run h (Vis e k) w =
  let '(x, w1) := h X e w in
  let '(t, a, w2) := run h (k x) w1 in
  (Entry e x :: t, a, w2).
Proof. reflexivity. Qed.

Lemma observe_nil {R : Type} (f : forall X : Type, event X -> X -> option R) :
  observe f [] = [].
Proof. reflexivity. Qed.

Lemma observe_cons {R : Type} (f : forall X : Type, event X -> X -> option R)
    (X : Type) (e : event X) (x : X) (t : trace) :
  observe f (Entry e x :: t)
  = match f X e x with
    | Some y => y :: observe f t
    | None => observe f t
    end.
Proof. reflexivity. Qed.

Lemma observe_app {R : Type} (f : forall X : Type, event X -> X -> option R) (t1 t2 : trace) :
  observe f (t1 ++ t2) = observe f t1 ++ observe f t2.
Proof.
  induction t1 as [| [X e x] rest IH]; [reflexivity |].
  simpl. rewrite IH. destruct (f X e x); reflexivity.
Qed.

Lemma observe_print_entries {R A : Type} (f : forall X : Type, event X -> X -> option R)
    (g : A -> string) (items : list A) :
  (forall text, f unit (Print text) tt = None) ->
  observe f (map (fun x => print_entry (g x)) items) = [].
Proof.
  intros Hf. induction items as [| x rest IH]; [reflexivity |].
  cbn [map]. unfold print_entry at 1. rewrite observe_cons, Hf. exact IH.
Qed.

Lemma printed_print_entries {A : Type} (g : A -> string) (items : list A) :
  observe print_of (map (fun x => print_entry (g x)) items) = map g items.
Proof.
  induction items as [| x rest IH]; [reflexivity |].
  cbn [map]. unfold print_entry at 1. rewrite observe_cons. cbn [print_of].
  f_equal. exact IH.
Qed.

Lemma prints_only_nil : prints_only [].
Proof. constructor. Qed.

Lemma prints_only_cons (text : string) (t : trace) :
  prints_only t -> prints_only (Entry (Print text) tt :: t).
Proof. intros Ht. constructor; [reflexivity | exact Ht]. Qed.

Lemma prints_only_app (t1 t2 : trace) :
  prints_only t1 -> prints_only t2 -> prints_only (t1 ++ t2).
Proof. intros H1 H2. apply Forall_app. split; assumption. Qed.

Lemma prints_only_print_entries {A : Type} (g : A -> string) (items : list A) :
  prints_only (map (fun x => print_entry (g x)) items).
Proof.
  induction items as [| x rest IH]; [constructor |].
  simpl. apply prints_only_cons. exact IH.
Qed.

Lemma observe_prints_only {R : Type} (f : forall X : Type, event X -> X -> option R)
    (t : trace) :
  prints_only t ->
  (forall text, f unit (Print text) tt = None) ->
  observe f t = [].
Proof.
  intros Ht Hf. induction Ht as [| [X e x] rest Hen _ IH]; [reflexivity |].
  rewrite observe_cons.
  destruct e; try discriminate Hen. destruct x. rewrite Hf. exact IH.
Qed.

End Runs.

Arguments run : simpl never.

(** ** The steps of the flow *)

Section Flow.
Context `{Builtins} {W : Type} (h : handler W).

(** Symbolic execution of a run equation [Hrun : run h p w = (t, r, w')]:
    the blocks of the script are unfolded when the run reaches them, and
    every answer of the environment and every outcome of an operation on
    values is split into its cases. *)
Ltac unfold_head p Hrun :=
  lazymatch p with
  | bind ?q _ => unfold_head q Hrun
  | bindE ?q _ => unfold_head q Hrun
  | try_except ?q _ => unfold try_except in Hrun
  | script => unfold script in Hrun
  | module_toplevel _ => unfold module_toplevel in Hrun
  | generate_refresh_token => unfold generate_refresh_token in Hrun
  | show_oauth_client_info => unfold show_oauth_client_info in Hrun
  | load_credentials => unfold load_credentials in Hrun
  | describe_client _ => unfold describe_client in Hrun
  | select_redirect_uri _ => unfold select_redirect_uri in Hrun
  | build_authorization_request _ => unfold build_authorization_request in Hrun
  | present_instructions _ _ => unfold present_instructions in Hrun
  | collect_authorization_response => unfold collect_authorization_response in Hrun
  | exchange_and_report _ _ => unfold exchange_and_report in Hrun
  | report_credentials _ => unfold report_credentials in Hrun
  | report_failure _ => unfold report_failure in Hrun
  end.

Ltac exec_stuck Hrun :=
  lazymatch type of Hrun with
  | run h ?p ?w = _ =>
      lazymatch p with
      | bind (for_each ?l (fun x => Vis (Print (@?g x)) _)) ?k =>
          rewrite (run_bind h (for_each l _) k w) in Hrun;
          let w' := fresh "w" in
          let E := fresh "E" in
          destruct (run_for_each_print h l g w) as [w' E];
          unfold print, perform_ in E; cbn beta in E;
          rewrite E in Hrun; clear E
      | bind (bind ?q ?k') ?k =>
          first [ unfold_head q Hrun | rewrite (run_bind h (bind q k') k w) in Hrun ]
      | bind show_oauth_client_info ?k => rewrite (run_bind h show_oauth_client_info k w) in Hrun
      | bind (select_redirect_uri ?v) ?k => rewrite (run_bind h (select_redirect_uri v) k w) in Hrun
      | _ => unfold_head p Hrun
      end
  end.

Ltac exec_case Hrun :=
  match type of Hrun with
  | context [match ?v with _ => _ end] =>
      lazymatch v with
      | context [match _ with _ => _ end] => fail
      | _ => tryif is_var v then destruct v else destruct v eqn:?
      end
  end.

Ltac exec_with stage norm Hrun :=
  unfold bindE, ret, raise, lift, print, input, perform, perform_ in Hrun;
  norm Hrun;
  lazymatch type of Hrun with
  | (_, _, _) = _ => apply triple_eq in Hrun as (<- & <- & <-)
  | run h (Ret _) _ = _ => rewrite run_Ret in Hrun; apply triple_eq in Hrun as (<- & <- & <-)
  | run h (Vis _ _) _ = _ => rewrite run_Vis in Hrun; exec_with stage norm Hrun
  | (match h ?X ?e ?w with _ => _ end) = _ =>
      let x := fresh "x" in
      let w1 := fresh "w" in
      destruct (h X e w) as [x w1];
      lazymatch X with
      | unit => destruct x
      | _ => idtac
      end;
      exec_with stage norm Hrun
  | (match run h ?p ?w with _ => _ end) = _ =>
      let Hrest := fresh "Hrun" in
      destruct (run h p w) as [[? ?] ?] eqn:Hrest;
      lazymatch type of Hrun with
      | (_, _, _) = _ =>
          apply triple_eq in Hrun as (<- & <- & <-);
          first [ stage Hrest | exec_with stage norm Hrest ]
      | _ =>
          first [ stage Hrest | exec_with stage norm Hrest ]; exec_with stage norm Hrun
      end
  | run h _ _ = _ =>
      first [exec_stuck Hrun | exec_case Hrun]; exec_with stage norm Hrun
  end.

Ltac norm_values Hrun :=
  cbn in Hrun; change (Z.to_nat 0) with 0%nat in Hrun; cbn in Hrun.

Ltac norm_binds Hrun := cbn [bind] in Hrun.

Ltac exec Hrun := exec_with ltac:(fun _ => fail) norm_values Hrun.

Ltac exec_done :=
  repeat match goal with u : unit |- _ => destruct u end.

(** The statement about the trace [t] and the result [r] is folded while
    the run is executed, and unfolded on each path at its end. *)
Ltac fold_goal t r :=
  pattern t, r;
  lazymatch goal with
  | |- ?Q t r => let G := fresh "Goal" in set (G := Q)
  end.

Ltac unfold_goal :=
  lazymatch goal with
  | G := _ |- _ => subst G; cbv beta
  end.

Ltac prints_only :=
  repeat first
    [ apply prints_only_nil
    | apply prints_only_cons
    | apply prints_only_app
    | apply prints_only_print_entries
    | assumption ].

(** Evaluation of the observations of an executed trace, in a hypothesis or
    in the goal. *)
Ltac observe_unfold_in Hobs :=
  unfold printed, environ_writes, imports, file_reads, inputs, flow_constructions,
    authorization_url_calls, exchanges, client_configs, refresh_tokens,
    flows_built, redirect_uris_set, authorization_urls in Hobs.

Ltac observe_unfold :=
  unfold printed, environ_writes, imports, file_reads, inputs, flow_constructions,
    authorization_url_calls, exchanges, client_configs, refresh_tokens,
    flows_built, redirect_uris_set, authorization_urls.

Ltac observe_cbn_in Hobs :=
  cbn [observe app entry_type entry_event entry_answer print_entry
       print_of environ_write_of import_of file_read_of input_of flow_construction_of
       authorization_url_call_of exchange_of client_config_of refresh_token_of
       flow_built_of redirect_uri_set_of authorization_url_of] in Hobs.

Ltac observe_cbn :=
  cbn [observe app entry_type entry_event entry_answer print_entry
       print_of environ_write_of import_of file_read_of input_of flow_construction_of
       authorization_url_call_of exchange_of client_config_of refresh_token_of
       flow_built_of redirect_uri_set_of authorization_url_of].

Ltac observe_step_in Hobs :=
  match type of Hobs with
  | context [observe ?f (?a ++ ?b)] => rewrite (observe_app f a b) in Hobs
  | context [observe print_of (map (fun x => print_entry (@?g x)) ?l)] =>
      rewrite (printed_print_entries g l) in Hobs
  | context [observe ?f (map (fun x => print_entry (@?g x)) ?l)] =>
      rewrite (observe_print_entries f g l (fun _ => eq_refl)) in Hobs
  | context [observe ?f ?t] =>
      match goal with
      | Ht : prints_only t |- _ =>
          rewrite (observe_prints_only f t Ht (fun _ => eq_refl)) in Hobs
      end
  end.

Ltac observe_step :=
  match goal with
  | |- context [observe ?f (?a ++ ?b)] => rewrite (observe_app f a b)
  | |- context [observe print_of (map (fun x => print_entry (@?g x)) ?l)] =>
      rewrite (printed_print_entries g l)
  | |- context [observe ?f (map (fun x => print_entry (@?g x)) ?l)] =>
      rewrite (observe_print_entries f g l (fun _ => eq_refl))
  | Ht : prints_only ?t |- context [observe ?f ?t] =>
      rewrite (observe_prints_only f t Ht (fun _ => eq_refl))
  end.

Ltac observe_in Hobs :=
  observe_unfold_in Hobs;
  repeat (observe_cbn_in Hobs; observe_step_in Hobs);
  observe_cbn_in Hobs.

Ltac observations :=
  observe_unfold; repeat (observe_cbn; observe_step); observe_cbn.

(** C1: for every list of registered redirect URIs, the selection returns
    the first element of a non-empty list (announcing it), and the static
    default ["http://localhost:8080/callback"] with the warning to register
    it for the empty list; it raises nothing, and it only prints. *)
Theorem select_redirect_uri_of_list (uris : list pyval) (w : W) :
  let '(t, r, _) := run h (select_redirect_uri (PList uris)) w in
  t = map print_entry (printed t) /\
  match uris with
  | first :: _ =>
      r = inr first /\
      printed t = ["Using existing redirect URI: " +:+ py_str first]
  | [] =>
      r = inr (PStr "http://localhost:8080/callback") /\
      printed t =
        ["Using default redirect URI: http://localhost:8080/callback";
         "Make sure you've added this URI to your OAuth client in Google Cloud Console!"]
  end.
Proof.
  destruct (run h (select_redirect_uri (PList uris)) w) as [[t r] w'] eqn:Hrun.
  destruct uris as [| first rest]; exec Hrun; exec_done; repeat split.
Qed.


Lemma well_formed_client_inv (v : pyval) :
  well_formed_client v = true ->
  exists info client_id client_secret,
    v = PDict info /\
    dict_lookup "client_id" info = Some (PStr client_id) /\
    dict_lookup "client_secret" info = Some (PStr client_secret) /\
    (dict_lookup "redirect_uris" info = None \/
     exists uris, dict_lookup "redirect_uris" info = Some (PList uris)).
Proof.
  destruct v as [| | | | | | info]; try discriminate. simpl.
  destruct (dict_lookup "client_id" info) as [[| | | | client_id | |] |] eqn:Hid;
    try discriminate.
  destruct (dict_lookup "client_secret" info) as [[| | | | client_secret | |] |] eqn:Hsecret;
    try discriminate.
  intros Huris. exists info, client_id, client_secret.
  split; [reflexivity |]. split; [exact Hid |]. split; [exact Hsecret |].
  destruct (dict_lookup "redirect_uris" info) as [[| | | | | uris |] |];
    try discriminate; eauto.
Qed.

Lemma well_formed_config_inv (top : list (string * pyval)) :
  well_formed_config (PDict top) = true ->
  exists client,
    dict_lookup (client_type_of top) top = Some client /\
    well_formed_client client = true.
Proof.
  unfold client_type_of. simpl.
  destruct (dict_lookup "web" top) as [web |] eqn:Hweb;
    destruct (dict_lookup "installed" top) as [installed |] eqn:Hinst;
    try discriminate; rewrite ?Hweb, ?Hinst; intros Hwf.
  - apply andb_prop in Hwf as [Hwf _]. eauto.
  - eauto.
  - eauto.
Qed.

(** C6: on a well-formed configuration file the inspection reports the
    client type named by the top-level key that is present (["web"] if
    there is one, ["installed"] otherwise), prints the client ID, the type
    and the redirect URIs between rules of 60 [=], and returns the list of
    the registered redirect URIs, the empty list when the file has no
    [redirect_uris] field. *)
Theorem show_oauth_client_info_well_formed
    (w w' : W) (t : trace) (r : exc + pyval) (text : string) (top : list (string * pyval)) :
  run h show_oauth_client_info w = (t, r, w') ->
  file_reads t = [(CREDENTIALS_FILE, inr text)] ->
  json_loads text = inr (PDict top) ->
  well_formed_config (PDict top) = true ->
  exists info client_id,
    dict_lookup (client_type_of top) top = Some (PDict info) /\
    dict_lookup "client_id" info = Some (PStr client_id) /\
    r = inr (PList (registered_uris info)) /\
    (dict_lookup "redirect_uris" info = None -> r = inr (PList [])) /\
    printed t =
      [py_mul_str "=" 60; "YOUR OAUTH CLIENT INFO:"; py_mul_str "=" 60;
       "Client ID: " +:+ client_id; "App Type: " +:+ client_type_of top]
      ++ match dict_lookup "redirect_uris" info with
         | Some _ =>
             "Configured Redirect URIs:"
             :: map (fun uri => "  - " +:+ py_str uri) (registered_uris info)
         | None => ["No redirect URIs found in the JSON file"]
         end
      ++ [py_mul_str "=" 60].
Proof.
  intros Hrun Hread Hload Hwf.
  apply well_formed_config_inv in Hwf as (client & Hclient & Hwf).
  apply well_formed_client_inv in Hwf as (info & client_id & secret & -> & Hid & _ & Huris).
  exists info, client_id. split; [exact Hclient |]. split; [exact Hid |].
  unfold show_oauth_client_info, load_credentials, bindE, perform in Hrun.
  cbn in Hrun. rewrite run_Vis in Hrun.
  destruct (h _ (ReadTextFile CREDENTIALS_FILE) w) as [answer w1].
  destruct (run h _ w1) as [[t' r'] w2] eqn:Hrest in Hrun.
  injection Hrun as <- <- <-.
  observe_in Hread. injection Hread as ->.
  cbn in Hrest. rewrite Hload in Hrest. cbn in Hrest.
  unfold describe_client, bindE, lift in Hrest. unfold client_type_of in *.
  destruct (dict_lookup "web" top) as [web |] eqn:Hweb;
    cbn in Hrest; rewrite Hweb in Hrest; cbn in Hrest; cbn in Hclient;
    rewrite ?Hweb in Hclient; try injection Hclient as ->; rewrite ?Hweb, ?Hclient in Hrest;
    cbn in Hrest; rewrite Hid in Hrest;
    unfold registered_uris;
    (destruct Huris as [Hnone | [uris Hsome]];
     [ rewrite Hnone in *; exec Hrest; exec_done; observations;
       repeat split; rewrite Hnone in *; congruence
     | rewrite Hsome in *; exec Hrest; exec_done; observations;
       repeat split; congruence ]).
Qed.




(** The inspection reads the file once and then only prints; a file that
    cannot be read or decoded ends it at once, with that exception. *)
Lemma show_oauth_client_info_shape (w w' : W) (t : trace) (r : exc + pyval) :
  run h show_oauth_client_info w = (t, r, w') ->
  exists answer rest,
    t = Entry (ReadTextFile CREDENTIALS_FILE) answer :: rest /\
    prints_only rest /\
    match answer with
    | inl e => rest = [] /\ r = inl e
    | inr text =>
        match json_loads text with
        | inl e => rest = [] /\ r = inl e
        | inr _ => True
        end
    end.
Proof.
  intros Hrun. unfold show_oauth_client_info in Hrun.
  exec Hrun; exec_done;
    (eexists _, _; split; [reflexivity |]; split; [prints_only |]);
    repeat match goal with
           | E : json_loads _ = _ |- _ => rewrite E; clear E
           end;
    auto.
Qed.

(** The selection only prints. *)
Lemma select_redirect_uri_shape (v : pyval) (w w' : W) (t : trace) (r : exc + pyval) :
  run h (select_redirect_uri v) w = (t, r, w') -> prints_only t.
Proof.
  intros Hrun. exec Hrun; exec_done; prints_only.
Qed.

Ltac stage Hstage :=
  lazymatch type of Hstage with
  | run h show_oauth_client_info _ = _ =>
      let answer := fresh "answer" in
      let rest := fresh "shown" in
      let Hshown := fresh "Hshown" in
      let Hload := fresh "Hload" in
      apply show_oauth_client_info_shape in Hstage
        as (answer & shown & -> & Hshown & Hload)
  | run h (select_redirect_uri _) _ = _ =>
      apply select_redirect_uri_shape in Hstage
  end.

Ltac exec_script Hrun := exec_with stage norm_binds Hrun.

Ltac start_script Hrun :=
  unfold script, module_toplevel in Hrun;
  change ("__main__" =? "__main__") with true in Hrun; cbv iota in Hrun.

(** C4: when the configuration file cannot be opened or read, or its text
    is not JSON, the script ends right after the read of the file, with
    that very exception uncaught: nothing is printed, no flow object is
    built, no authorization URL is requested, no input is read and no
    exchange is attempted. *)
Theorem unreadable_configuration_aborts
    (w w' : W) (t : trace) (r : exc + unit) (answer : exc + string) (e : exc) :
  run h script w = (t, r, w') ->
  file_reads t = [(CREDENTIALS_FILE, answer)] ->
  (answer = inl e \/ exists text, answer = inr text /\ json_loads text = inl e) ->
  t = [Entry (Import "json") (inr tt);
       Entry (Import "google_auth_oauthlib.flow") (inr tt);
       Entry (Import "os") (inr tt);
       Entry (EnvironSet "OAUTHLIB_INSECURE_TRANSPORT" "1") tt;
       Entry (ReadTextFile CREDENTIALS_FILE) answer] /\
  termination_of r = UncaughtException e /\
  printed t = [] /\
  flow_constructions t = [] /\
  authorization_url_calls t = [] /\
  inputs t = [] /\
  exchanges t = [].
Proof.
  intros Hrun. start_script Hrun. fold_goal t r.
  exec_script Hrun; unfold_goal; intros Hread Hbad;
    observe_in Hread; try discriminate Hread;
    injection Hread as ->;
    (destruct Hbad as [-> | (text & -> & Hjson)]; [| rewrite Hjson in Hload]);
    destruct Hload as [-> Hr]; try discriminate Hr;
    injection Hr as ->; exec_done; repeat split.
Qed.


Ltac ends_with :=
  apply ends_with_suffix;
  repeat first [ reflexivity | apply suffix_cons_r | apply suffix_app_r ].

(** C2: when the exchange call raises an exception [e] (of a class deriving
    from [Exception]), the script prints [str(e)] after ["Error: "], then
    the three remediation hints, and ends normally.  These five prints are
    all that follows the exchange call, and the credentials are never read
    from the flow, so no credential line is printed. *)
Theorem failed_exchange_is_reported
    (w w' : W) (t : trace) (r : exc + unit) (response : string) (e : exc) :
  run h script w = (t, r, w') ->
  exchanges t = [(response, inl e)] ->
  is_Exception e = true ->
  termination_of r = ExitNormally /\
  (exists f before,
     t = before
         ++ Entry (FlowFetchToken f response) (inl e)
            :: map print_entry
                 [nl +:+ "Error: " +:+ exc_str e;
                  nl +:+ "Common issues:";
                  "1. Redirect URI mismatch - check your OAuth client configuration";
                  "2. Invalid authorization code - try generating a new auth URL";
                  "3. Network issues - check your internet connection"]) /\
  client_configs t = [] /\
  refresh_tokens t = [].
Proof.
  intros Hrun. start_script Hrun. fold_goal t r.
  exec_script Hrun; unfold_goal; intros Hexchange Hclass;
    observe_in Hexchange; try discriminate Hexchange;
    injection Hexchange as <- <-; try congruence; exec_done.
  split; [reflexivity |]. split; [eexists _; ends_with |].
  split; observations; reflexivity.
Qed.


Ltac use_lookups :=
  repeat match goal with
         | Hall : Forall _ (_ :: _) |- _ =>
             let Hhead := fresh "Hhead" in
             apply Forall_cons in Hall as [Hhead Hall]
         | Hhead : _ /\ _ |- _ => destruct Hhead
         end;
  repeat match goal with
         | E : py_getitem_str (PDict ?l) ?k = _, L : dict_lookup ?k ?l = Some _ |- _ =>
             cbn [py_getitem_str] in E; rewrite L in E;
             first [ discriminate E | injection E as <- ]
         end.

(** C3: when the exchange call succeeds, every read of
    [flow.client_config] shows [client_id] [X] and [client_secret] [Y], and
    every read of [flow.credentials.refresh_token] gives [R], the output
    ends with the labelled block and then the three assignments
    [GOOGLE_ADS_CLIENT_ID=X], [GOOGLE_ADS_CLIENT_SECRET=Y] and
    [GOOGLE_ADS_REFRESH_TOKEN=R], and the script ends normally. *)
Theorem successful_exchange_reports_credentials
    (w w' : W) (t : trace) (r : exc + unit) (response X Y R : string) :
  run h script w = (t, r, w') ->
  exchanges t = [(response, inr tt)] ->
  Forall (fun config => dict_lookup "client_id" config = Some (PStr X) /\
                        dict_lookup "client_secret" config = Some (PStr Y))
         (client_configs t) ->
  Forall (fun token => token = inr (PStr R)) (refresh_tokens t) ->
  termination_of r = ExitNormally /\
  exists before,
    printed t =
      before ++
      [nl +:+ py_mul_str "=" 60;
       "SUCCESS! Your credentials:";
       py_mul_str "=" 60;
       "CLIENT_ID: " +:+ X;
       "CLIENT_SECRET: " +:+ Y;
       "REFRESH_TOKEN: " +:+ R;
       py_mul_str "=" 60;
       nl +:+ "Add these to your environment variables:";
       "GOOGLE_ADS_CLIENT_ID=" +:+ X;
       "GOOGLE_ADS_CLIENT_SECRET=" +:+ Y;
       "GOOGLE_ADS_REFRESH_TOKEN=" +:+ R].
Proof.
  intros Hrun. start_script Hrun. fold_goal t r.
  exec_script Hrun; unfold_goal; intros Hexchange Hconfigs Htokens;
    observe_in Hexchange; try discriminate Hexchange;
    observe_in Hconfigs; observe_in Htokens; use_lookups; try discriminate.
  repeat match goal with
         | Htoken : inr _ = inr (PStr R) |- _ => injection Htoken as ->
         end.
  split; [reflexivity |]. observations. ends_with.
Qed.


(** C5: every run builds at most one flow object and asks it for at most
    one authorization URL; the flow object is built from the fixed file
    with the single advertising-API scope, and the URL is requested with
    exactly [access_type=offline], [include_granted_scopes=true] and
    [prompt=consent].  A run that gets as far as reading the operator's
    input has made this request. *)
Theorem authorization_request_is_fixed (w w' : W) (t : trace) (r : exc + unit) :
  run h script w = (t, r, w') ->
  (flow_constructions t = [] \/
   flow_constructions t
   = [("client_secret.json", ["https://www.googleapis.com/auth/adwords"])]) /\
  (authorization_url_calls t = [] \/
   authorization_url_calls t
   = [[("access_type", "offline"); ("include_granted_scopes", "true");
       ("prompt", "consent")]]) /\
  (inputs t <> [] ->
   flow_constructions t
   = [("client_secret.json", ["https://www.googleapis.com/auth/adwords"])] /\
   authorization_url_calls t
   = [[("access_type", "offline"); ("include_granted_scopes", "true");
       ("prompt", "consent")]]).
Proof.
  intros Hrun. start_script Hrun. fold_goal t r.
  exec_script Hrun; unfold_goal; observations;
    (split; [ first [left; reflexivity | right; reflexivity] |]);
    (split; [ first [left; reflexivity | right; reflexivity] |]);
    intros Hinput; first [ congruence | split; reflexivity ].
Qed.

(** C8: the module's top level, whatever [__name__] is, performs its three
    imports and then, before anything else, sets
    [OAUTHLIB_INSECURE_TRANSPORT] to ["1"] in the process environment; it
    writes no other variable and never writes again.  (Only a failing
    import, which ends the run at once, leaves the environment as it
    was.) *)
Theorem insecure_transport_is_set_first
    (name : string) (w w' : W) (t : trace) (r : exc + unit) :
  run h (module_toplevel name) w = (t, r, w') ->
  (forallb is_import t = true /\
   (exists e, r = inl e) /\
   forall environ, environ_after environ t = environ) \/
  (exists rest,
     t = [Entry (Import "json") (inr tt);
          Entry (Import "google_auth_oauthlib.flow") (inr tt);
          Entry (Import "os") (inr tt);
          Entry (EnvironSet "OAUTHLIB_INSECURE_TRANSPORT" "1") tt] ++ rest /\
     environ_writes rest = [] /\
     environ_writes t = [("OAUTHLIB_INSECURE_TRANSPORT", "1")] /\
     forall environ,
       environ_after environ t = <["OAUTHLIB_INSECURE_TRANSPORT" := "1"]> environ).
Proof.
  intros Hrun. fold_goal t r.
  exec_script Hrun; unfold_goal; exec_done;
    first
      [ left; split; [reflexivity |]; split; [eexists; reflexivity |];
        intros environ; reflexivity
      | right; eexists; split; [reflexivity |];
        unfold environ_after; observations; repeat split ].
Qed.


(** C9: whatever line the operator enters, the exchange is attempted, once,
    and the string passed to it is that line with the whitespace at its two
    ends removed: the line is [l ++ passed ++ r] with [l] and [r] made of
    whitespace only, and [passed] neither starts nor ends with whitespace.
    Nothing else is changed and nothing is checked before the call. *)
Theorem pasted_line_is_stripped
    (w w' : W) (t : trace) (r : exc + unit) (line : string) :
  run h script w = (t, r, w') ->
  inputs t = [inr line] ->
  (exists outcome, exchanges t = [(py_strip line, outcome)]) /\
  (exists l r,
     line = l +:+ py_strip line +:+ r /\
     all_space l = true /\ all_space r = true /\
     starts_with_space (py_strip line) = false /\
     ends_with_space (py_strip line) = false).
Proof.
  intros Hrun. start_script Hrun. fold_goal t r.
  exec_script Hrun; unfold_goal; intros Hinput;
    observe_in Hinput; try discriminate Hinput;
    injection Hinput as ->;
    (split; [eexists; observations; reflexivity | apply py_strip_spec]).
Qed.

(** Two runs of one program that only print have printed the same texts
    and end with the same result. *)
Lemma prints_only_deterministic {A : Type} (p : prog A)
    (w1 w2 w1' w2' : W) (t1 t2 : trace) (r1 r2 : A) :
  run h p w1 = (t1, r1, w1') ->
  run h p w2 = (t2, r2, w2') ->
  prints_only t1 -> prints_only t2 ->
  t1 = t2 /\ r1 = r2.
Proof.
  revert w1 w2 w1' w2' t1 t2 r1 r2.
  induction p as [a | X e k IH]; intros w1 w2 w1' w2' t1 t2 r1 r2 Hrun1 Hrun2 H1 H2.
  - rewrite run_Ret in Hrun1, Hrun2.
    apply triple_eq in Hrun1 as (<- & <- & _).
    apply triple_eq in Hrun2 as (<- & <- & _). split; reflexivity.
  - rewrite run_Vis in Hrun1, Hrun2.
    destruct (h X e w1) as [x1 v1]. destruct (h X e w2) as [x2 v2].
    destruct (run h (k x1) v1) as [[ta ra] va] eqn:Ha.
    destruct (run h (k x2) v2) as [[tb rb] vb] eqn:Hb.
    apply triple_eq in Hrun1 as (<- & <- & _).
    apply triple_eq in Hrun2 as (<- & <- & _).
    apply Forall_cons in H1 as [Hp1 H1]. apply Forall_cons in H2 as [_ H2].
    destruct e; try discriminate Hp1. destruct x1, x2.
    destruct (IH tt _ _ _ _ _ _ _ _ Ha Hb H1 H2) as [-> ->].
    split; reflexivity.
Qed.

(** C7: two inspections that find the same file (the read of the file is
    answered alike) issue the same events, print the same texts and return
    the same list or raise the same exception.  An inspection touches the
    file by one read only, and otherwise only prints. *)
Theorem inspection_is_repeatable
    (w1 w2 w1' w2' : W) (t1 t2 : trace) (r1 r2 : exc + pyval) :
  run h show_oauth_client_info w1 = (t1, r1, w1') ->
  run h show_oauth_client_info w2 = (t2, r2, w2') ->
  file_reads t1 = file_reads t2 ->
  printed t1 = printed t2 /\ r1 = r2 /\ t1 = t2 /\
  exists answer shown,
    t1 = Entry (ReadTextFile CREDENTIALS_FILE) answer :: shown /\
    prints_only shown /\
    file_reads t1 = [(CREDENTIALS_FILE, answer)].
Proof.
  intros Hrun1 Hrun2 Hsame.
  destruct (show_oauth_client_info_shape _ _ _ _ Hrun1) as (a1 & s1 & E1 & Hs1 & _).
  destruct (show_oauth_client_info_shape _ _ _ _ Hrun2) as (a2 & s2 & E2 & Hs2 & _).
  unfold show_oauth_client_info, load_credentials, bindE, perform in Hrun1, Hrun2.
  cbn [bind] in Hrun1, Hrun2. rewrite run_Vis in Hrun1, Hrun2.
  destruct (h _ (ReadTextFile CREDENTIALS_FILE) w1) as [b1 v1].
  destruct (h _ (ReadTextFile CREDENTIALS_FILE) w2) as [b2 v2].
  destruct (run h _ v1) as [[ta ra] va] eqn:Ha in Hrun1.
  destruct (run h _ v2) as [[tb rb] vb] eqn:Hb in Hrun2.
  apply triple_eq in Hrun1 as (Ht1 & <- & _).
  apply triple_eq in Hrun2 as (Ht2 & <- & _).
  assert (Hta : prints_only ta).
  { rewrite E1 in Ht1. injection Ht1 as _ ->. exact Hs1. }
  assert (Htb : prints_only tb).
  { rewrite E2 in Ht2. injection Ht2 as _ ->. exact Hs2. }
  subst t1 t2. observe_in Hsame. injection Hsame as ->.
  destruct (prints_only_deterministic _ _ _ _ _ _ _ _ _ Ha Hb Hta Htb) as [-> ->].
  split; [reflexivity |]. split; [reflexivity |]. split; [reflexivity |].
  exists b2, tb. split; [reflexivity |]. split; [exact Htb |].
  observations. reflexivity.
Qed.

Lemma describe_client_web (top : list (string * pyval)) (web : pyval) :
  dict_lookup "web" top = Some web ->
  describe_client (PDict top) = describe_client (PDict [("web", web)]).
Proof.
  intros Hweb. unfold describe_client, bindE, lift.
  cbn. rewrite Hweb. cbn. rewrite Hweb. reflexivity.
Qed.

Lemma describe_client_neither (top : list (string * pyval)) :
  dict_lookup "web" top = None ->
  dict_lookup "installed" top = None ->
  describe_client (PDict top) = raise (KeyError (PStr "installed")).
Proof.
  intros Hweb Hinstalled. unfold describe_client, bindE, lift, raise.
  cbn. rewrite Hweb. cbn. rewrite Hinstalled. reflexivity.
Qed.

(** C10: when the parsed file has both a ["web"] and an ["installed"]
    entry, the inspection goes on exactly as for the file that has the
    ["web"] entry alone; when it has neither, the inspection ends right
    after the read with [KeyError('installed')], having printed nothing. *)
Theorem client_type_choice
    (w w' : W) (t : trace) (r : exc + pyval) (text : string)
    (top : list (string * pyval)) :
  run h show_oauth_client_info w = (t, r, w') ->
  file_reads t = [(CREDENTIALS_FILE, inr text)] ->
  json_loads text = inr (PDict top) ->
  match dict_lookup "web" top, dict_lookup "installed" top with
  | Some web, Some _ =>
      describe_client (PDict top) = describe_client (PDict [("web", web)]) /\
      exists w1 rest,
        t = Entry (ReadTextFile CREDENTIALS_FILE) (inr text) :: rest /\
        run h (describe_client (PDict [("web", web)])) w1 = (rest, r, w')
  | None, None =>
      t = [Entry (ReadTextFile CREDENTIALS_FILE) (inr text)] /\
      r = inl (KeyError (PStr "installed")) /\
      printed t = []
  | _, _ => True
  end.
Proof.
  intros Hrun Hread Hload.
  unfold show_oauth_client_info, load_credentials, bindE, perform in Hrun.
  cbn [bind] in Hrun. rewrite run_Vis in Hrun.
  destruct (h _ (ReadTextFile CREDENTIALS_FILE) w) as [answer w1].
  destruct (run h _ w1) as [[rest r'] w2] eqn:Hrest in Hrun.
  apply triple_eq in Hrun as (<- & <- & <-).
  assert (Hanswer : answer = inr text).
  { unfold file_reads in Hread. cbn [observe entry_type entry_event entry_answer file_read_of]
      in Hread. injection Hread as -> _. reflexivity. }
  subst answer. unfold lift in Hrest. cbn [bind] in Hrest.
  rewrite Hload in Hrest. cbn [bind] in Hrest.
  destruct (dict_lookup "web" top) as [web |] eqn:Hweb;
    destruct (dict_lookup "installed" top) as [installed |] eqn:Hinstalled;
    try exact I.
  - split; [apply describe_client_web; exact Hweb |].
    exists w1, rest. split; [reflexivity |].
    rewrite <- (describe_client_web top web Hweb). exact Hrest.
  - rewrite (describe_client_neither top Hweb Hinstalled) in Hrest.
    unfold raise in Hrest. rewrite run_Ret in Hrest.
    apply triple_eq in Hrest as (<- & <- & _). repeat split.
Qed.


(** * Further properties of the script *)

Lemma py_rstrip_blank (s : string) : all_space s = true -> py_rstrip s = "".
Proof.
  unfold all_space. induction s as [| c rest IH]; [reflexivity |].
  cbn [list_ascii_of_string forallb py_rstrip]. intros Hall.
  apply andb_prop in Hall as [Hc Hrest].
  rewrite (IH Hrest), Hc. reflexivity.
Qed.

Lemma py_lstrip_blank (s : string) : all_space s = true -> py_lstrip s = "".
Proof.
  unfold all_space. induction s as [| c rest IH]; [reflexivity |].
  cbn [list_ascii_of_string forallb py_lstrip]. intros Hall.
  apply andb_prop in Hall as [Hc Hrest].
  rewrite Hc. exact (IH Hrest).
Qed.

Lemma py_strip_blank (s : string) : all_space s = true -> py_strip s = "".
Proof.
  intros Hall. unfold py_strip. rewrite (py_lstrip_blank s Hall). reflexivity.
Qed.

(** X1: an exception raised by the exchange call whose class does not
    derive from [Exception] (a [KeyboardInterrupt] while the network call
    is pending) is not caught by the [except Exception] clause: the exchange
    call is the last thing the script does, no hint is printed, and the
    script ends with that exception uncaught. *)
Theorem interrupted_exchange_is_not_caught
    (w w' : W) (t : trace) (r : exc + unit) (response : string) (e : exc) :
  run h script w = (t, r, w') ->
  exchanges t = [(response, inl e)] ->
  is_Exception e = false ->
  termination_of r = UncaughtException e /\
  (exists f before, t = before ++ [Entry (FlowFetchToken f response) (inl e)]) /\
  client_configs t = [] /\
  refresh_tokens t = [].
Proof.
  intros Hrun. start_script Hrun. fold_goal t r.
  exec_script Hrun; unfold_goal; intros Hexchange Hclass;
    observe_in Hexchange; try discriminate Hexchange;
    injection Hexchange as <- <-; try congruence; exec_done.
  split; [reflexivity |]. split; [eexists _; ends_with |].
  split; observations; reflexivity.
Qed.

(** X2: the credentials are read inside the [try] block.  When the exchange
    succeeds but [flow.client_config] has no [client_secret], the
    [KeyError] raised by the lookup is caught like a failed exchange: after
    the success banner and the [CLIENT_ID] line the script prints
    [Error: 'client_secret'] and the three hints, never reads the refresh
    token, prints no assignment, and ends normally. *)
Theorem missing_client_secret_is_reported_after_the_banner
    (w w' : W) (t : trace) (r : exc + unit) (response : string) (X : pyval) :
  run h script w = (t, r, w') ->
  exchanges t = [(response, inr tt)] ->
  Forall (fun config => dict_lookup "client_id" config = Some X /\
                        dict_lookup "client_secret" config = None)
         (client_configs t) ->
  termination_of r = ExitNormally /\
  refresh_tokens t = [] /\
  exists before,
    printed t =
      before ++
      [nl +:+ py_mul_str "=" 60;
       "SUCCESS! Your credentials:";
       py_mul_str "=" 60;
       "CLIENT_ID: " +:+ py_str X;
       nl +:+ "Error: " +:+ py_repr (PStr "client_secret");
       nl +:+ "Common issues:";
       "1. Redirect URI mismatch - check your OAuth client configuration";
       "2. Invalid authorization code - try generating a new auth URL";
       "3. Network issues - check your internet connection"].
Proof.
  intros Hrun. start_script Hrun. fold_goal t r.
  exec_script Hrun; unfold_goal; intros Hexchange Hconfigs;
    observe_in Hexchange; try discriminate Hexchange;
    observe_in Hconfigs; use_lookups; try discriminate.
  all: repeat match goal with
              | E : py_getitem_str (PDict ?l) ?k = _, L : dict_lookup ?k ?l = None |- _ =>
                  cbn [py_getitem_str] in E; rewrite L in E;
                  first [ discriminate E | injection E as <- ]
              end.
  all: try discriminate.
  all: exec_done.
  all: (split; [reflexivity |]; split; [observations; reflexivity |]).
  all: observations; ends_with.
Qed.

(** X3: nothing is checked about what the flow holds after a successful
    exchange.  Whatever values [flow.client_config] has under [client_id]
    and [client_secret] and whatever [flow.credentials.refresh_token] is
    ([None] when the provider issued no refresh token), the script prints
    their [str] in the labelled block and in the three assignments and
    ends normally. *)
Theorem credentials_are_printed_unchecked
    (w w' : W) (t : trace) (r : exc + unit) (response : string) (X Y R : pyval) :
  run h script w = (t, r, w') ->
  exchanges t = [(response, inr tt)] ->
  Forall (fun config => dict_lookup "client_id" config = Some X /\
                        dict_lookup "client_secret" config = Some Y)
         (client_configs t) ->
  Forall (fun token => token = inr R) (refresh_tokens t) ->
  termination_of r = ExitNormally /\
  length (client_configs t) = 4%nat /\
  length (refresh_tokens t) = 2%nat /\
  exists before,
    printed t =
      before ++
      [nl +:+ py_mul_str "=" 60;
       "SUCCESS! Your credentials:";
       py_mul_str "=" 60;
       "CLIENT_ID: " +:+ py_str X;
       "CLIENT_SECRET: " +:+ py_str Y;
       "REFRESH_TOKEN: " +:+ py_str R;
       py_mul_str "=" 60;
       nl +:+ "Add these to your environment variables:";
       "GOOGLE_ADS_CLIENT_ID=" +:+ py_str X;
       "GOOGLE_ADS_CLIENT_SECRET=" +:+ py_str Y;
       "GOOGLE_ADS_REFRESH_TOKEN=" +:+ py_str R].
Proof.
  intros Hrun. start_script Hrun. fold_goal t r.
  exec_script Hrun; unfold_goal; intros Hexchange Hconfigs Htokens;
    observe_in Hexchange; try discriminate Hexchange;
    observe_in Hconfigs; observe_in Htokens; use_lookups; try discriminate.
  repeat match goal with
         | Htoken : inr _ = inr R |- _ => injection Htoken as ->
         end.
  split; [reflexivity |]. split; [observations; reflexivity |].
  split; [observations; reflexivity |]. observations. ends_with.
Qed.

(** X4: the prompt is outside the [try] block.  When [input] raises (the
    terminal is at its end, or the operator interrupts), the script ends
    there with that exception uncaught, whatever its class, and the
    exchange is never attempted. *)
Theorem failed_prompt_is_not_caught
    (w w' : W) (t : trace) (r : exc + unit) (e : exc) :
  run h script w = (t, r, w') ->
  inputs t = [inl e] ->
  termination_of r = UncaughtException e /\
  (exists before,
     t = before ++ [Entry (Input (nl +:+ "Paste the full redirect URL here: ")) (inl e)]) /\
  exchanges t = [].
Proof.
  intros Hrun. start_script Hrun. fold_goal t r.
  exec_script Hrun; unfold_goal; intros Hinput;
    observe_in Hinput; try discriminate Hinput;
    injection Hinput as <-; exec_done.
  split; [reflexivity |]. split; [ends_with |].
  observations. reflexivity.
Qed.

(** X5: a line made of whitespace only is not rejected: the exchange is
    attempted with the empty string. *)
Theorem blank_line_is_exchanged
    (w w' : W) (t : trace) (r : exc + unit) (line : string) :
  run h script w = (t, r, w') ->
  inputs t = [inr line] ->
  all_space line = true ->
  exists outcome, exchanges t = [("", outcome)].
Proof.
  intros Hrun. start_script Hrun. fold_goal t r.
  exec_script Hrun; unfold_goal; intros Hinput Hblank;
    observe_in Hinput; try discriminate Hinput;
    injection Hinput as ->;
    rewrite (py_strip_blank _ Hblank); eexists; observations; reflexivity.
Qed.

(** X6: a module that imports this file instead of running it (any
    [__name__] other than ["__main__"]) gets the three imports and the
    write to the process environment and nothing else: no file is read,
    nothing is printed, the terminal is not read and the OAuth library is
    not called. *)
Theorem imported_module_does_not_run
    (name : string) (w w' : W) (t : trace) (r : exc + unit) :
  (name =? "__main__") = false ->
  run h (module_toplevel name) w = (t, r, w') ->
  file_reads t = [] /\ printed t = [] /\ inputs t = [] /\
  flow_constructions t = [] /\ exchanges t = [] /\
  (Forall (fun i => snd i = inr tt) (imports t) ->
   r = inr tt /\
   t = [Entry (Import "json") (inr tt);
        Entry (Import "google_auth_oauthlib.flow") (inr tt);
        Entry (Import "os") (inr tt);
        Entry (EnvironSet "OAUTHLIB_INSECURE_TRANSPORT" "1") tt]).
Proof.
  intros Hname Hrun. unfold module_toplevel in Hrun. rewrite Hname in Hrun.
  exec Hrun; exec_done; observations;
    do 5 (split; [reflexivity |]);
    intros Himports; use_lookups;
    repeat match goal with
           | Hhead : snd _ = _ |- _ => cbn [snd] in Hhead; try discriminate Hhead; clear Hhead
           end;
    split; reflexivity.
Qed.

(** X7: the selection does not check that the registered redirect URIs are
    a list.  When [redirect_uris] is a non-empty string, the redirect URI
    selected and announced is its first character. *)
Theorem select_redirect_uri_of_string (c : ascii) (rest : string) (w : W) :
  let '(t, r, _) := run h (select_redirect_uri (PStr (String c rest))) w in
  r = inr (PStr (String c "")) /\
  t = [print_entry ("Using existing redirect URI: " +:+ String c "")].
Proof.
  destruct (run h (select_redirect_uri (PStr (String c rest))) w) as [[t r] w'] eqn:Hrun.
  exec Hrun; exec_done; repeat split.
Qed.

(** X8: every value that counts as false ([None], [false], zero, the empty
    string, the empty list and the empty object) selects the default
    redirect URI, with the warning to register it. *)
Theorem select_redirect_uri_of_falsy
    (v : pyval) (w w' : W) (t : trace) (r : exc + pyval) :
  py_truth v = false ->
  run h (select_redirect_uri v) w = (t, r, w') ->
  r = inr (PStr REDIRECT_URI) /\
  t = map print_entry
        ["Using default redirect URI: http://localhost:8080/callback";
         "Make sure you've added this URI to your OAuth client in Google Cloud Console!"].
Proof.
  intros Hfalse Hrun. unfold select_redirect_uri in Hrun. rewrite Hfalse in Hrun.
  exec Hrun; exec_done; repeat split.
Qed.

(** X9: when [redirect_uris] is a non-empty object, the index [0] is looked
    up as a key: the selection raises [KeyError(0)] and prints nothing. *)
Theorem select_redirect_uri_of_object
    (key : string) (value : pyval) (rest : list (string * pyval)) (w : W) :
  let '(t, r, _) := run h (select_redirect_uri (PDict ((key, value) :: rest))) w in
  r = inl (KeyError (PInt 0)) /\ t = [].
Proof.
  destruct (run h (select_redirect_uri (PDict ((key, value) :: rest))) w)
    as [[t r] w'] eqn:Hrun.
  exec Hrun; exec_done; repeat split.
Qed.

(** X10: the inspection iterates over [redirect_uris] whatever it is.  For a
    string it lists every character on a line of its own, and returns the
    string itself. *)
Theorem string_redirect_uris_are_listed_by_character
    (w w' : W) (t : trace) (r : exc + pyval)
    (top info : list (string * pyval)) (client_id : pyval) (uris : string) :
  dict_lookup (client_type_of top) top = Some (PDict info) ->
  dict_lookup "client_id" info = Some client_id ->
  dict_lookup "redirect_uris" info = Some (PStr uris) ->
  run h (describe_client (PDict top)) w = (t, r, w') ->
  r = inr (PStr uris) /\
  prints_only t /\
  printed t =
    [py_mul_str "=" 60; "YOUR OAUTH CLIENT INFO:"; py_mul_str "=" 60;
     "Client ID: " +:+ py_str client_id; "App Type: " +:+ client_type_of top;
     "Configured Redirect URIs:"]
    ++ map (fun c => "  - " +:+ c) (chars uris)
    ++ [py_mul_str "=" 60].
Proof.
  intros Hclient Hid Huris Hrun.
  unfold describe_client, bindE, lift in Hrun. unfold client_type_of in *.
  destruct (dict_lookup "web" top) as [web |] eqn:Hweb;
    cbn in Hrun; rewrite Hweb in Hrun; cbn in Hrun;
    rewrite Hclient in Hrun; cbn in Hrun; rewrite Hid in Hrun;
    rewrite Huris in Hrun; exec Hrun; exec_done;
    (split; [congruence |]); (split; [prints_only |]);
    observations; rewrite map_map; reflexivity.
Qed.

(** X11: a client entry without [client_id] stops the inspection after the
    three lines of the heading, with [KeyError('client_id')]. *)
Theorem missing_client_id_stops_after_the_heading
    (w w' : W) (t : trace) (r : exc + pyval) (top info : list (string * pyval)) :
  dict_lookup (client_type_of top) top = Some (PDict info) ->
  dict_lookup "client_id" info = None ->
  run h (describe_client (PDict top)) w = (t, r, w') ->
  r = inl (KeyError (PStr "client_id")) /\
  t = map print_entry [py_mul_str "=" 60; "YOUR OAUTH CLIENT INFO:"; py_mul_str "=" 60].
Proof.
  intros Hclient Hid Hrun.
  unfold describe_client, bindE, lift in Hrun. unfold client_type_of in *.
  destruct (dict_lookup "web" top) as [web |] eqn:Hweb;
    cbn in Hrun; rewrite Hweb in Hrun; cbn in Hrun;
    rewrite Hclient in Hrun; cbn in Hrun; rewrite Hid in Hrun;
    exec Hrun; exec_done; repeat split.
Qed.

(** X12: a file whose JSON text is not an object (a list, a string, a
    number, [true], [false] or [null]) stops the inspection with a
    [TypeError] before anything is printed. *)
Theorem non_object_configuration_is_a_type_error
    (creds : pyval) (w w' : W) (t : trace) (r : exc + pyval) :
  is_dict creds = false ->
  run h (describe_client creds) w = (t, r, w') ->
  t = [] /\ exists operation, r = inl (TypeError operation creds).
Proof.
  intros Hdict Hrun. unfold describe_client in Hrun.
  destruct creds; try discriminate Hdict; exec Hrun; exec_done;
    (split; [reflexivity | eexists; reflexivity]).
Qed.

(** X13: the flow is set up outside the [try] block.  When the OAuth
    library refuses to build the flow from the file, or to produce the
    authorization URL, the script ends at that call with the library's
    exception uncaught: the operator is never prompted and no exchange is
    attempted. *)
Theorem flow_setup_failure_is_not_caught
    (w w' : W) (t : trace) (r : exc + unit) (e : exc) :
  run h script w = (t, r, w') ->
  flows_built t = [inl e] \/ authorization_urls t = [inl e] ->
  termination_of r = UncaughtException e /\
  inputs t = [] /\
  exchanges t = [] /\
  ((exists before,
      t = before ++ [Entry (FlowFromClientSecretsFile CREDENTIALS_FILE SCOPES) (inl e)]) \/
   (exists f before,
      t = before ++ [Entry (FlowAuthorizationUrl f AUTHORIZATION_PARAMETERS) (inl e)])).
Proof.
  intros Hrun. start_script Hrun. fold_goal t r.
  exec_script Hrun; unfold_goal; intros [Hsetup | Hsetup];
    observe_in Hsetup; try discriminate Hsetup;
    injection Hsetup as <-; exec_done;
    (split; [reflexivity |]);
    (split; [observations; reflexivity |]);
    (split; [observations; reflexivity |]);
    first [ solve [left; ends_with] | solve [right; eexists; ends_with] ].
Qed.

(** X16: once the exchange has been attempted, every exception of a class
    deriving from [Exception] is swallowed, wherever in the [try] block it
    arises: the script ends normally, and its output ends either with the
    refresh-token assignment or with the error message and the three
    hints.  Only an exception outside [Exception] ends it abnormally. *)
Theorem attempted_exchange_outcomes
    (w w' : W) (t : trace) (r : exc + unit) :
  run h script w = (t, r, w') ->
  exchanges t <> [] ->
  (termination_of r = ExitNormally /\
   ((exists R before,
       printed t = before ++ ["GOOGLE_ADS_REFRESH_TOKEN=" +:+ py_str R]) \/
    (exists e,
       is_Exception e = true /\
       exists before,
       printed t =
         before ++
         [nl +:+ "Error: " +:+ exc_str e;
          nl +:+ "Common issues:";
          "1. Redirect URI mismatch - check your OAuth client configuration";
          "2. Invalid authorization code - try generating a new auth URL";
          "3. Network issues - check your internet connection"]))) \/
  (exists e, termination_of r = UncaughtException e /\ is_Exception e = false).
Proof.
  intros Hrun. start_script Hrun. fold_goal t r.
  exec_script Hrun; unfold_goal; intros Hexchange;
    observe_in Hexchange; try congruence; clear Hexchange; exec_done;
    first
      [ right; eexists; split; [reflexivity | eassumption]
      | left; split; [reflexivity |]; observations;
        first
          [ solve [left; eexists; ends_with]
          | solve [right; eexists; split; [eassumption |]; ends_with] ] ].
Qed.

(** What the selection prints tells what it returns. *)
Lemma select_redirect_uri_announces (v : pyval) (w w' : W) (t : trace) (r : exc + pyval) :
  run h (select_redirect_uri v) w = (t, r, w') ->
  match r with
  | inr uri =>
      t = map print_entry ["Using existing redirect URI: " +:+ py_str uri] \/
      (uri = PStr REDIRECT_URI /\
       t = map print_entry
             ["Using default redirect URI: http://localhost:8080/callback";
              "Make sure you've added this URI to your OAuth client in Google Cloud Console!"])
  | inl _ => t = []
  end.
Proof.
  intros Hrun. exec Hrun; exec_done; auto.
Qed.

Ltac stage_announced Hstage :=
  lazymatch type of Hstage with
  | run h show_oauth_client_info _ = _ =>
      let answer := fresh "answer" in
      let rest := fresh "shown" in
      let Hshown := fresh "Hshown" in
      let Hload := fresh "Hload" in
      apply show_oauth_client_info_shape in Hstage
        as (answer & shown & -> & Hshown & Hload)
  | run h (select_redirect_uri _) _ = _ =>
      apply select_redirect_uri_announces in Hstage
  end.

Ltac announced :=
  repeat match goal with
         | Ht : ?t = [] |- _ => subst t
         | Ht : _ = map print_entry _ \/ _ |- _ => destruct Ht as [-> | [-> ->]]
         end.

Ltac exec_announced Hrun := exec_with stage_announced norm_binds Hrun.

(** X14: the redirect URI assigned to the flow is the one the script has
    just announced: the announcement is printed, the flow is built, and
    the announced value is assigned to its [redirect_uri], in this order
    and with nothing in between. *)
Theorem flow_is_given_the_announced_uri
    (w w' : W) (t : trace) (r : exc + unit) (uri : pyval) :
  run h script w = (t, r, w') ->
  redirect_uris_set t = [uri] ->
  exists lines before built after,
    (lines = ["Using existing redirect URI: " +:+ py_str uri] \/
     uri = PStr REDIRECT_URI /\
     lines = ["Using default redirect URI: http://localhost:8080/callback";
              "Make sure you've added this URI to your OAuth client in Google Cloud Console!"]) /\
    t = before ++ map print_entry lines
        ++ Entry (FlowFromClientSecretsFile CREDENTIALS_FILE SCOPES) (inr built)
           :: Entry (FlowSetRedirectUri built uri) tt :: after.
Proof.
  intros Hrun. start_script Hrun. fold_goal t r.
  exec_announced Hrun; unfold_goal; intros Hset; announced;
    observe_in Hset; try discriminate Hset;
    injection Hset as <-;
    eexists _, (_ :: _ :: _ :: _ :: _ :: _), _, _;
    first
      [ solve [split; [left; reflexivity | cbn [app map]; reflexivity]]
      | solve [split; [right; split; reflexivity | cbn [app map]; reflexivity]] ].
Qed.

(** X15: when the OAuth library returns an authorization URL, the
    instructions show exactly that URL under "STEP 1" and the redirect URI
    that was assigned to the flow under "STEP 2"; the state returned with
    the URL is not used.  The operator is then prompted, once. *)
Theorem instructions_show_the_url_and_the_uri
    (w w' : W) (t : trace) (r : exc + unit) (uri : pyval) (url state : string) :
  run h script w = (t, r, w') ->
  redirect_uris_set t = [uri] ->
  authorization_urls t = [inr (url, state)] ->
  length (inputs t) = 1%nat /\
  exists before after,
    printed t =
      before ++
      [nl +:+ py_mul_str "=" 60;
       "STEP 1: Visit this URL in your browser:";
       url;
       py_mul_str "=" 60;
       nl +:+ "STEP 2: After authorizing, you'll be redirected to: " +:+ py_str uri;
       "The page might not load (that's normal for localhost).";
       "Copy the ENTIRE URL from your browser's address bar and paste it below.";
       py_mul_str "=" 60] ++ after.
Proof.
  intros Hrun. start_script Hrun. fold_goal t r.
  exec_script Hrun; unfold_goal; intros Hset Hurl;
    observe_in Hset; try discriminate Hset;
    observe_in Hurl; try discriminate Hurl;
    injection Hset as <-; injection Hurl as ->;
    (split; [observations; reflexivity |]);
    observations; eexists (_ ++ _), _; rewrite <- app_assoc; reflexivity.
Qed.

End Flow.

(** ** The theorems at concrete runs *)

Section Witnesses.
Import Sample.

Lemma run_of_eq (sc : scenario) :
  run (answer sc) script tt = (trace_of sc, result_of sc, tt).
Proof.
  unfold trace_of, result_of, run_of.
  destruct (run (answer sc) script tt) as [[t r] []]. reflexivity.
Qed.

Lemma inspection_of_eq (sc : scenario) :
  run (answer sc) show_oauth_client_info tt = (shown_by sc, returned_by sc, tt).
Proof.
  unfold shown_by, returned_by, inspection_of.
  destruct (run (answer sc) show_oauth_client_info tt) as [[t r] []]. reflexivity.
Qed.

Lemma failed_exchange_is_reported_witness :
  termination_of (result_of rejected) = ExitNormally /\
  (exists f before,
     trace_of rejected
     = before
       ++ Entry (FlowFetchToken f "http://localhost:8080/callback?code=4/abc")
                (inl invalid_grant)
          :: map print_entry
               [nl +:+ "Error: " +:+ "invalid_grant";
                nl +:+ "Common issues:";
                "1. Redirect URI mismatch - check your OAuth client configuration";
                "2. Invalid authorization code - try generating a new auth URL";
                "3. Network issues - check your internet connection"]) /\
  client_configs (trace_of rejected) = [] /\
  refresh_tokens (trace_of rejected) = [].
Proof.
  apply (failed_exchange_is_reported (answer rejected) tt tt);
    [apply run_of_eq | reflexivity | reflexivity].
Defined.

Lemma successful_exchange_reports_credentials_witness :
  termination_of (result_of success) = ExitNormally /\
  exists before,
    printed (trace_of success) =
      before ++
      [nl +:+ py_mul_str "=" 60;
       "SUCCESS! Your credentials:";
       py_mul_str "=" 60;
       "CLIENT_ID: X";
       "CLIENT_SECRET: Y";
       "REFRESH_TOKEN: R";
       py_mul_str "=" 60;
       nl +:+ "Add these to your environment variables:";
       "GOOGLE_ADS_CLIENT_ID=X";
       "GOOGLE_ADS_CLIENT_SECRET=Y";
       "GOOGLE_ADS_REFRESH_TOKEN=R"].
Proof.
  apply (successful_exchange_reports_credentials (answer success) tt tt
           (trace_of success) (result_of success)
           "http://localhost:8080/callback?code=4/abc" "X" "Y" "R");
    [ apply run_of_eq
    | reflexivity
    | vm_compute; repeat constructor
    | vm_compute; repeat constructor ].
Defined.

Lemma unreadable_configuration_aborts_witness :
  trace_of missing_file
  = [Entry (Import "json") (inr tt);
     Entry (Import "google_auth_oauthlib.flow") (inr tt);
     Entry (Import "os") (inr tt);
     Entry (EnvironSet "OAUTHLIB_INSECURE_TRANSPORT" "1") tt;
     Entry (ReadTextFile CREDENTIALS_FILE) (inl file_not_found)] /\
  termination_of (result_of missing_file) = UncaughtException file_not_found /\
  printed (trace_of missing_file) = [] /\
  flow_constructions (trace_of missing_file) = [] /\
  authorization_url_calls (trace_of missing_file) = [] /\
  inputs (trace_of missing_file) = [] /\
  exchanges (trace_of missing_file) = [].
Proof.
  apply (unreadable_configuration_aborts (answer missing_file) tt tt);
    [apply run_of_eq | reflexivity | left; reflexivity].
Defined.

Lemma authorization_request_is_fixed_witness :
  inputs (trace_of success) <> [] /\
  flow_constructions (trace_of success)
  = [("client_secret.json", ["https://www.googleapis.com/auth/adwords"])] /\
  authorization_url_calls (trace_of success)
  = [[("access_type", "offline"); ("include_granted_scopes", "true");
      ("prompt", "consent")]].
Proof.
  assert (Hinput : inputs (trace_of success) <> []) by (vm_compute; discriminate).
  split; [exact Hinput |].
  exact (proj2 (proj2 (authorization_request_is_fixed (answer success) tt tt
                         (trace_of success) (result_of success) (run_of_eq success)))
               Hinput).
Defined.

Lemma show_oauth_client_info_well_formed_witness :
  exists info client_id,
    dict_lookup (client_type_of [("web", PDict web_client)]) [("web", PDict web_client)]
    = Some (PDict info) /\
    dict_lookup "client_id" info = Some (PStr client_id) /\
    returned_by success = inr (PList (registered_uris info)) /\
    (dict_lookup "redirect_uris" info = None -> returned_by success = inr (PList [])) /\
    printed (shown_by success) =
      [py_mul_str "=" 60; "YOUR OAUTH CLIENT INFO:"; py_mul_str "=" 60;
       "Client ID: " +:+ client_id;
       "App Type: " +:+ client_type_of [("web", PDict web_client)]]
      ++ match dict_lookup "redirect_uris" info with
         | Some _ =>
             "Configured Redirect URIs:"
             :: map (fun uri => "  - " +:+ py_str uri) (registered_uris info)
         | None => ["No redirect URIs found in the JSON file"]
         end
      ++ [py_mul_str "=" 60].
Proof.
  apply (show_oauth_client_info_well_formed (answer success) tt tt
           (shown_by success) (returned_by success) web_text);
    [apply inspection_of_eq | reflexivity | reflexivity | reflexivity].
Defined.

Lemma inspection_is_repeatable_witness :
  printed (shown_by success) = printed (shown_by success) /\
  returned_by success = returned_by success /\
  shown_by success = shown_by success /\
  exists answer shown,
    shown_by success = Entry (ReadTextFile CREDENTIALS_FILE) answer :: shown /\
    prints_only shown /\
    file_reads (shown_by success) = [(CREDENTIALS_FILE, answer)].
Proof.
  apply (inspection_is_repeatable (answer success) tt tt tt tt
           (shown_by success) (shown_by success) (returned_by success) (returned_by success));
    [apply inspection_of_eq | apply inspection_of_eq | reflexivity].
Defined.

Lemma insecure_transport_is_set_first_witness :
  (forallb is_import (trace_of success) = true /\
   (exists e, result_of success = inl e) /\
   forall environ, environ_after environ (trace_of success) = environ) \/
  (exists rest,
     trace_of success
     = [Entry (Import "json") (inr tt);
        Entry (Import "google_auth_oauthlib.flow") (inr tt);
        Entry (Import "os") (inr tt);
        Entry (EnvironSet "OAUTHLIB_INSECURE_TRANSPORT" "1") tt] ++ rest /\
     environ_writes rest = [] /\
     environ_writes (trace_of success) = [("OAUTHLIB_INSECURE_TRANSPORT", "1")] /\
     forall environ,
       environ_after environ (trace_of success)
       = <["OAUTHLIB_INSECURE_TRANSPORT" := "1"]> environ).
Proof.
  apply (insecure_transport_is_set_first (answer success) "__main__" tt tt).
  exact (run_of_eq success).
Defined.

Lemma pasted_line_is_stripped_witness :
  (exists outcome,
     exchanges (trace_of success) = [(py_strip pasted_line, outcome)]) /\
  (exists l r,
     pasted_line = l +:+ py_strip pasted_line +:+ r /\
     all_space l = true /\ all_space r = true /\
     starts_with_space (py_strip pasted_line) = false /\
     ends_with_space (py_strip pasted_line) = false).
Proof.
  apply (pasted_line_is_stripped (answer success) tt tt
           (trace_of success) (result_of success));
    [apply run_of_eq | reflexivity].
Defined.

Lemma client_type_choice_witness :
  describe_client both_config = describe_client (PDict [("web", PDict web_client)]) /\
  exists w1 rest,
    shown_by (with_file both_text)
    = Entry (ReadTextFile CREDENTIALS_FILE) (inr both_text) :: rest /\
    run (answer (with_file both_text))
        (describe_client (PDict [("web", PDict web_client)])) w1
    = (rest, returned_by (with_file both_text), tt).
Proof.
  exact (client_type_choice (answer (with_file both_text)) tt tt
           (shown_by (with_file both_text)) (returned_by (with_file both_text))
           both_text both_top
           (inspection_of_eq (with_file both_text)) eq_refl eq_refl).
Defined.


Lemma run_in_eq {A : Type} (answers : handler unit) (p : prog A) :
  run answers p tt = (trace_in answers p, result_in answers p, tt).
Proof.
  unfold trace_in, result_in.
  destruct (run answers p tt) as [[t r] []]. reflexivity.
Qed.

Lemma interrupted_exchange_is_not_caught_witness :
  termination_of (result_of interrupted) = UncaughtException keyboard_interrupt /\
  (exists f before,
     trace_of interrupted
     = before
       ++ [Entry (FlowFetchToken f "http://localhost:8080/callback?code=4/abc")
                 (inl keyboard_interrupt)]) /\
  client_configs (trace_of interrupted) = [] /\
  refresh_tokens (trace_of interrupted) = [].
Proof.
  apply (interrupted_exchange_is_not_caught (answer interrupted) tt tt);
    [apply run_of_eq | reflexivity | reflexivity].
Defined.

Lemma missing_client_secret_is_reported_after_the_banner_witness :
  termination_of (result_of secretless) = ExitNormally /\
  refresh_tokens (trace_of secretless) = [] /\
  exists before,
    printed (trace_of secretless) =
      before ++
      [nl +:+ py_mul_str "=" 60;
       "SUCCESS! Your credentials:";
       py_mul_str "=" 60;
       "CLIENT_ID: X";
       nl +:+ "Error: 'client_secret'";
       nl +:+ "Common issues:";
       "1. Redirect URI mismatch - check your OAuth client configuration";
       "2. Invalid authorization code - try generating a new auth URL";
       "3. Network issues - check your internet connection"].
Proof.
  assert (Hconfigs :
            Forall (fun config => dict_lookup "client_id" config = Some (PStr "X") /\
                                  dict_lookup "client_secret" config = None)
                   (client_configs (trace_of secretless)))
    by (vm_compute; repeat constructor).
  exact (missing_client_secret_is_reported_after_the_banner (answer secretless) tt tt
           (trace_of secretless) (result_of secretless)
           "http://localhost:8080/callback?code=4/abc" (PStr "X")
           (run_of_eq secretless) eq_refl Hconfigs).
Defined.

Lemma credentials_are_printed_unchecked_witness :
  termination_of (result_of tokenless) = ExitNormally /\
  length (client_configs (trace_of tokenless)) = 4%nat /\
  length (refresh_tokens (trace_of tokenless)) = 2%nat /\
  exists before,
    printed (trace_of tokenless) =
      before ++
      [nl +:+ py_mul_str "=" 60;
       "SUCCESS! Your credentials:";
       py_mul_str "=" 60;
       "CLIENT_ID: X";
       "CLIENT_SECRET: Y";
       "REFRESH_TOKEN: None";
       py_mul_str "=" 60;
       nl +:+ "Add these to your environment variables:";
       "GOOGLE_ADS_CLIENT_ID=X";
       "GOOGLE_ADS_CLIENT_SECRET=Y";
       "GOOGLE_ADS_REFRESH_TOKEN=None"].
Proof.
  assert (Hconfigs :
            Forall (fun config => dict_lookup "client_id" config = Some (PStr "X") /\
                                  dict_lookup "client_secret" config = Some (PStr "Y"))
                   (client_configs (trace_of tokenless)))
    by (vm_compute; repeat constructor).
  assert (Htokens : Forall (fun token => token = inr PNone) (refresh_tokens (trace_of tokenless)))
    by (vm_compute; repeat constructor).
  exact (credentials_are_printed_unchecked (answer tokenless) tt tt
           (trace_of tokenless) (result_of tokenless)
           "http://localhost:8080/callback?code=4/abc" (PStr "X") (PStr "Y") PNone
           (run_of_eq tokenless) eq_refl Hconfigs Htokens).
Defined.

Lemma failed_prompt_is_not_caught_witness :
  termination_of (result_of end_of_input) = UncaughtException end_of_file /\
  (exists before,
     trace_of end_of_input
     = before ++ [Entry (Input (nl +:+ "Paste the full redirect URL here: "))
                        (inl end_of_file)]) /\
  exchanges (trace_of end_of_input) = [].
Proof.
  apply (failed_prompt_is_not_caught (answer end_of_input) tt tt);
    [apply run_of_eq | reflexivity].
Defined.

Lemma blank_line_is_exchanged_witness :
  exists outcome, exchanges (trace_of blank) = [("", outcome)].
Proof.
  apply (blank_line_is_exchanged (answer blank) tt tt
           (trace_of blank) (result_of blank) blank_line);
    [apply run_of_eq | reflexivity | reflexivity].
Defined.

Lemma imported_module_does_not_run_witness :
  file_reads (trace_in (answer success) (module_toplevel "generate_refresh_token")) = [] /\
  printed (trace_in (answer success) (module_toplevel "generate_refresh_token")) = [] /\
  inputs (trace_in (answer success) (module_toplevel "generate_refresh_token")) = [] /\
  flow_constructions (trace_in (answer success) (module_toplevel "generate_refresh_token"))
  = [] /\
  exchanges (trace_in (answer success) (module_toplevel "generate_refresh_token")) = [] /\
  (Forall (fun i => snd i = inr tt)
          (imports (trace_in (answer success) (module_toplevel "generate_refresh_token"))) ->
   result_in (answer success) (module_toplevel "generate_refresh_token") = inr tt /\
   trace_in (answer success) (module_toplevel "generate_refresh_token")
   = [Entry (Import "json") (inr tt);
      Entry (Import "google_auth_oauthlib.flow") (inr tt);
      Entry (Import "os") (inr tt);
      Entry (EnvironSet "OAUTHLIB_INSECURE_TRANSPORT" "1") tt]).
Proof.
  apply (imported_module_does_not_run (answer success) "generate_refresh_token" tt tt);
    [reflexivity | apply run_in_eq].
Defined.

Lemma select_redirect_uri_of_falsy_witness :
  result_in (answer success) (select_redirect_uri PNone)
  = inr (PStr "http://localhost:8080/callback") /\
  trace_in (answer success) (select_redirect_uri PNone)
  = map print_entry
      ["Using default redirect URI: http://localhost:8080/callback";
       "Make sure you've added this URI to your OAuth client in Google Cloud Console!"].
Proof.
  apply (select_redirect_uri_of_falsy (answer success) PNone tt tt);
    [reflexivity | apply run_in_eq].
Defined.

Lemma string_redirect_uris_are_listed_by_character_witness :
  result_in (answer success) (describe_client (PDict string_uris_top)) = inr (PStr "ab") /\
  prints_only (trace_in (answer success) (describe_client (PDict string_uris_top))) /\
  printed (trace_in (answer success) (describe_client (PDict string_uris_top))) =
    [py_mul_str "=" 60; "YOUR OAUTH CLIENT INFO:"; py_mul_str "=" 60;
     "Client ID: X"; "App Type: web"; "Configured Redirect URIs:"]
    ++ ["  - a"; "  - b"]
    ++ [py_mul_str "=" 60].
Proof.
  apply (string_redirect_uris_are_listed_by_character (answer success) tt tt
           (trace_in (answer success) (describe_client (PDict string_uris_top)))
           (result_in (answer success) (describe_client (PDict string_uris_top)))
           string_uris_top
           [("client_id", PStr "X"); ("redirect_uris", PStr "ab")] (PStr "X") "ab");
    [reflexivity | reflexivity | reflexivity | apply run_in_eq].
Defined.

Lemma missing_client_id_stops_after_the_heading_witness :
  result_in (answer success) (describe_client (PDict [("web", PDict [])]))
  = inl (KeyError (PStr "client_id")) /\
  trace_in (answer success) (describe_client (PDict [("web", PDict [])]))
  = map print_entry [py_mul_str "=" 60; "YOUR OAUTH CLIENT INFO:"; py_mul_str "=" 60].
Proof.
  apply (missing_client_id_stops_after_the_heading (answer success) tt tt
           (trace_in (answer success) (describe_client (PDict [("web", PDict [])])))
           (result_in (answer success) (describe_client (PDict [("web", PDict [])])))
           [("web", PDict [])] []);
    [reflexivity | reflexivity | apply run_in_eq].
Defined.

Lemma non_object_configuration_is_a_type_error_witness :
  trace_in (answer success) (describe_client (PList [])) = [] /\
  exists operation,
    result_in (answer success) (describe_client (PList []))
    = inl (TypeError operation (PList [])).
Proof.
  apply (non_object_configuration_is_a_type_error (answer success) (PList []) tt tt);
    [reflexivity | apply run_in_eq].
Defined.

Lemma flow_setup_failure_is_not_caught_witness :
  termination_of (result_in (answer_without_flow success) script)
  = UncaughtException invalid_client_secrets /\
  inputs (trace_in (answer_without_flow success) script) = [] /\
  exchanges (trace_in (answer_without_flow success) script) = [] /\
  ((exists before,
      trace_in (answer_without_flow success) script
      = before ++ [Entry (FlowFromClientSecretsFile CREDENTIALS_FILE SCOPES)
                         (inl invalid_client_secrets)]) \/
   (exists f before,
      trace_in (answer_without_flow success) script
      = before ++ [Entry (FlowAuthorizationUrl f AUTHORIZATION_PARAMETERS)
                         (inl invalid_client_secrets)])).
Proof.
  apply (flow_setup_failure_is_not_caught (answer_without_flow success) tt tt);
    [apply run_in_eq | left; reflexivity].
Defined.

Lemma flow_is_given_the_announced_uri_witness :
  exists lines before built after,
    (lines = ["Using existing redirect URI: http://localhost:8080/callback"] \/
     PStr "http://localhost:8080/callback" = PStr REDIRECT_URI /\
     lines = ["Using default redirect URI: http://localhost:8080/callback";
              "Make sure you've added this URI to your OAuth client in Google Cloud Console!"]) /\
    trace_of success
    = before ++ map print_entry lines
      ++ Entry (FlowFromClientSecretsFile CREDENTIALS_FILE SCOPES) (inr built)
         :: Entry (FlowSetRedirectUri built (PStr "http://localhost:8080/callback")) tt
         :: after.
Proof.
  apply (flow_is_given_the_announced_uri (answer success) tt tt
           (trace_of success) (result_of success) (PStr "http://localhost:8080/callback"));
    [apply run_of_eq | reflexivity].
Defined.

Lemma instructions_show_the_url_and_the_uri_witness :
  length (inputs (trace_of success)) = 1%nat /\
  exists before after,
    printed (trace_of success) =
      before ++
      [nl +:+ py_mul_str "=" 60;
       "STEP 1: Visit this URL in your browser:";
       "https://accounts.google.com/o/oauth2/auth";
       py_mul_str "=" 60;
       nl +:+ "STEP 2: After authorizing, you'll be redirected to: "
          +:+ "http://localhost:8080/callback";
       "The page might not load (that's normal for localhost).";
       "Copy the ENTIRE URL from your browser's address bar and paste it below.";
       py_mul_str "=" 60] ++ after.
Proof.
  apply (instructions_show_the_url_and_the_uri (answer success) tt tt
           (trace_of success) (result_of success)
           (PStr "http://localhost:8080/callback")
           "https://accounts.google.com/o/oauth2/auth" "state");
    [apply run_of_eq | reflexivity | reflexivity].
Defined.

Lemma attempted_exchange_outcomes_witness :
  exchanges (trace_of success) <> [] /\
  ((termination_of (result_of success) = ExitNormally /\
    ((exists R before,
        printed (trace_of success)
        = before ++ ["GOOGLE_ADS_REFRESH_TOKEN=" +:+ py_str R]) \/
     (exists e,
        is_Exception e = true /\
        exists before,
          printed (trace_of success) =
            before ++
            [nl +:+ "Error: " +:+ exc_str e;
             nl +:+ "Common issues:";
             "1. Redirect URI mismatch - check your OAuth client configuration";
             "2. Invalid authorization code - try generating a new auth URL";
             "3. Network issues - check your internet connection"]))) \/
   (exists e, termination_of (result_of success) = UncaughtException e /\
              is_Exception e = false)).
Proof.
  assert (Hattempted : exchanges (trace_of success) <> []) by (vm_compute; discriminate).
  split; [exact Hattempted |].
  exact (attempted_exchange_outcomes (answer success) tt tt
           (trace_of success) (result_of success) (run_of_eq success) Hattempted).
Defined.

End Witnesses.
